(** * Financial.py: ratios, projection, DCF valuation and rate sweep

    A shallow embedding of the computational core of [Financial.py]
    ([calculate_ratios], [project_financials], [dcf_valuation],
    [sensitivity_analysis] and the data flow of the [__main__] block), the
    properties its specification states about it, and further properties
    read off the code.

    Numbers.  Every quantity of the script is an IEEE 754 binary64 value: a
    reading of a pandas table, a [numpy.float64] computed from readings, or
    a Python [float] rate.  They are Rocq's primitive floats, whose [+],
    [-], [*] and [/] are the binary64 operations (round to nearest, ties to
    even, with infinities, NaN and signed zeros).  A table reading is a
    [numpy.float64], and an operation with a [numpy.float64] operand follows
    numpy: it never raises, division by zero and overflow yield [inf] or
    [nan] (with a warning).  The one operation of the script that can take
    two Python operands is the power [(1 + rate) ** k], and Python's
    [float ** int] raises OverflowError where numpy's returns [inf]; a rate
    therefore records which of the two it is ([scalar]).

    The power itself is the [pow] of the C library.  The functions take it
    as a parameter ([Libm]); the general theorems hold for every such
    function, and the concrete runs use the correctly rounded power
    ([cr_libm]): the binary64 number nearest to the exact power, [inf] when
    that is out of range.

    Failures.  Subscripting a table with an absent column raises KeyError,
    [s[-1]] and [s[0]] on an empty sequence raise IndexError, reading a
    module-level name that is not bound raises NameError, and a Python
    power that overflows raises OverflowError.  They are the [Raise]
    outcomes of the [result] monad, threaded in Python's order of
    evaluation. *)

From Stdlib Require Import ZArith Floats Lia.
From stdpp Require Import base option list gmap strings.

Set Warnings "-inexact-float".

Open Scope string_scope.
Open Scope list_scope.

(** ** Numbers *)

Abbreviation fadd := PrimFloat.add.
Abbreviation fsub := PrimFloat.sub.
Abbreviation fmul := PrimFloat.mul.
Abbreviation fdiv := PrimFloat.div.

(** [math.isfinite], [math.isinf], and "is [0.0] or [-0.0]". *)
Definition isfinite (x : float) : bool :=
  match Prim2SF x with
  | S754_zero _ | S754_finite _ _ _ => true
  | S754_infinity _ | S754_nan => false
  end.

Definition isinf (x : float) : bool :=
  match Prim2SF x with
  | S754_infinity _ => true
  | _ => false
  end.

Definition iszero (x : float) : bool :=
  match Prim2SF x with
  | S754_zero _ => true
  | _ => false
  end.

(** [float(n)] for a natural number [n]. *)
Definition of_nat (n : nat) : float :=
  SF2Prim (binary_normalize prec emax (Z.of_nat n) 0 false).

(** Python's builtin [sum]: starts from the integer [0] and adds from the
    left. *)
Definition sum (xs : list float) : float := foldl fadd 0%float xs.

(** A rate as the caller passes it: a Python [float] or a [numpy.float64].
    The value is the same binary64 number; the type decides what the power
    does on overflow. *)
Inductive scalar : Type :=
  | PyFloat (x : float)
  | NpFloat (x : float).

Definition value (s : scalar) : float :=
  match s with PyFloat x | NpFloat x => x end.

(** [1 + rate]: the sum keeps the type of [rate]. *)
Definition one_plus (s : scalar) : scalar :=
  match s with
  | PyFloat x => PyFloat (fadd 1 x)
  | NpFloat x => NpFloat (fadd 1 x)
  end.

(** ** Exceptions *)

Inductive exn : Type :=
  | NameError (name : string)
  | KeyError (key : string)
  | IndexError
  | OverflowError.

Inductive result (A : Type) : Type :=
  | Ok (a : A)
  | Raise (e : exn).
Arguments Ok {A} a.
Arguments Raise {A} e.

#[global] Instance result_ret : MRet result := fun A a => Ok a.
#[global] Instance result_bind : MBind result := fun A B f m =>
  match m with Ok a => f a | Raise e => Raise e end.

Definition raises {A} (m : result A) : Prop :=
  match m with Ok _ => False | Raise _ => True end.

(** ** The power *)

(** The C library's [pow (x, k)] for a finite [x > 0], [x <> 1], and an
    integer [k >= 1]: the only arguments at which the script's powers are
    left to the library. *)
Class Libm : Type := { libm_pow : float → nat → float }.

(** [x ** k] for an integer [k >= 0], as a value.  The special cases are
    fixed by the C standard (and repeated by CPython's [float_pow]):
    [x ** 0] is [1.0] for every [x], NaN stays NaN, an infinity or a zero
    keeps its sign for odd [k] and loses it for even [k], [1.0 ** k] is
    [1.0]; a negative base gives the signed power of its absolute value. *)
Definition pow_value `{Libm} (x : float) (k : nat) : float :=
  match k with
  | O => 1%float
  | S _ =>
      match Prim2SF x with
      | S754_nan => x
      | S754_infinity _ => if Nat.odd k then x else PrimFloat.abs x
      | S754_zero _ => if Nat.odd k then x else 0%float
      | S754_finite s _ _ =>
          let y := if PrimFloat.eqb (PrimFloat.abs x) 1
                   then 1%float else libm_pow (PrimFloat.abs x) k in
          if s && Nat.odd k then PrimFloat.opp y else y
      end
  end.

(** "[base ** k] raises": Python's [float ** int] raises OverflowError when
    the power of a finite base is infinite; numpy's [float64 ** int] never
    raises. *)
Definition overflows `{Libm} (base : scalar) (k : nat) : bool :=
  match base with
  | PyFloat x => isfinite x && isinf (pow_value x k)
  | NpFloat _ => false
  end.

(** [base ** k] *)
Definition scalar_pow `{Libm} (base : scalar) (k : nat) : result float :=
  if overflows base k then Raise OverflowError
  else Ok (pow_value (value base) k).

(** The correctly rounded power: the rounding to nearest, ties to even, of
    the exact [x ^ k]; [inf] when that is out of range. *)
Definition cr_pow (x : float) (k : nat) : float :=
  match Prim2SF x with
  | S754_finite s m e =>
      SF2Prim (binary_round prec emax s (Pos.pow m (Pos.of_nat k))
                            (e * Z.of_nat k))
  | _ => x
  end.

#[global] Instance cr_libm : Libm := {| libm_pow := cr_pow |}.

(** ** Tables and names *)

(** A pandas Series is the list of its readings in index order; a DataFrame
    maps a column label to its Series.  The columns of one frame share the
    frame's index, so element-wise arithmetic between two of them pairs the
    readings of the same period. *)
Abbreviation Series := (list float).
Abbreviation DataFrame := (gmap string (list float)).

(** The module namespace: the tables bound at module level. *)
Abbreviation Globals := (gmap string (gmap string (list float))).

(** [frame[key]] *)
Definition getitem {A} (frame : gmap string A) (key : string) : result A :=
  match frame !! key with
  | Some col => Ok col
  | None => Raise (KeyError key)
  end.

(** Reading the module-level name [name]. *)
Definition global (G : Globals) (name : string) : result DataFrame :=
  match G !! name with
  | Some v => Ok v
  | None => Raise (NameError name)
  end.

(** [s[-1]] *)
Definition item_last {A} (s : list A) : result A :=
  match last s with
  | Some x => Ok x
  | None => Raise IndexError
  end.

(** [s[0]] *)
Definition item_first {A} (s : list A) : result A :=
  match head s with
  | Some x => Ok x
  | None => Raise IndexError
  end.

(** [range(n)] for a Python integer [n]: empty when [n <= 0]. *)
Definition range (n : Z) : list nat := seq 0 (Z.to_nat n).

(** [enumerate(xs)] *)
Definition enumerate {A} (xs : list A) : list (nat * A) := imap pair xs.

(** [a / b] on two Series of one frame. *)
Definition series_div (a b : Series) : Series := zip_with fdiv a b.

(** A [for] loop over [xs] whose body updates [s] and may raise. *)
Fixpoint for_each {A S} (body : S → A → result S) (s : S) (xs : list A)
  : result S :=
  match xs with
  | [] => Ok s
  | x :: xs => s' ← body s x; for_each body s' xs
  end.

(** ** Step 2: [calculate_ratios] *)

Definition calculate_ratios (income_statement balance_sheet : DataFrame)
  : result (gmap string Series) :=
  gross_profit ← getitem income_statement "Gross Profit";
  total_revenue ← getitem income_statement "Total Revenue";
  let gross_margin := series_div gross_profit total_revenue in
  operating_income ← getitem income_statement "Operating Income";
  total_revenue ← getitem income_statement "Total Revenue";
  let operating_margin := series_div operating_income total_revenue in
  net_income ← getitem income_statement "Net Income";
  total_revenue ← getitem income_statement "Total Revenue";
  let net_profit_margin := series_div net_income total_revenue in
  total_liabilities ← getitem balance_sheet "Total Liabilities";
  total_equity ← getitem balance_sheet "Total Stockholder Equity";
  let debt_to_equity := series_div total_liabilities total_equity in
  mret (<["gross_margin" := gross_margin]>
        (<["operating_margin" := operating_margin]>
         (<["net_profit_margin" := net_profit_margin]>
          (<["debt_to_equity" := debt_to_equity]> ∅)))).

(** ** Step 3: [project_financials] *)

Definition default_growth_rate : scalar := PyFloat 0.10.
Definition default_years : Z := 5.

(** The first comprehension evaluates [(1 + growth_rate) ** i] for each
    [i]; [net_profit_margin[-1]] sits inside the second comprehension, so
    it is evaluated once per projected revenue and not at all when there is
    none. *)
Definition project_financials `{Libm} (income_statement : DataFrame)
    (net_profit_margin : Series) (growth_rate : scalar) (years : Z)
  : result (list float * list float) :=
  initial_revenue ← getitem income_statement "Total Revenue" ≫= item_last;
  revenue_projections ←
    mapM (fun i => p ← scalar_pow (one_plus growth_rate) i;
                   mret (fmul initial_revenue p))
         (range years);
  net_income_projections ←
    mapM (fun rev => margin ← item_last net_profit_margin;
                     mret (fmul rev margin))
         revenue_projections;
  mret (revenue_projections, net_income_projections).

(** ** Step 4: [dcf_valuation] *)

Definition default_discount_rate : scalar := PyFloat 0.10.
Definition default_terminal_growth_rate : scalar := PyFloat 0.02.

(** [cash_flow['Free Cash Flow'][-1] / income_statement['Net Income'][-1]]:
    [cash_flow] is the parameter, [income_statement] is not a parameter of
    either caller and is read from the module namespace [G].  The two
    readings are [numpy.float64], so the division does not raise. *)
Definition fcf_to_net_income_ratio (G : Globals) (cash_flow : DataFrame)
  : result float :=
  fcf ← getitem cash_flow "Free Cash Flow" ≫= item_last;
  income_statement ← global G "income_statement";
  ni ← getitem income_statement "Net Income" ≫= item_last;
  mret (fdiv fcf ni).

(** [[fcf / (1 + rate)**(i + 1) for i, fcf in enumerate(fcfs)]] *)
Definition discount `{Libm} (rate : scalar) (fcfs : list float)
  : result (list float) :=
  mapM (fun ifcf => p ← scalar_pow (one_plus rate) (ifcf.1 + 1);
                    mret (fdiv ifcf.2 p))
       (enumerate fcfs).

(** The lines the valuation and the body of the sweep share: the
    discounted cash flows, [terminal_value / (1 + rate)**len(fcfs)], and
    their sum. *)
Definition discounted_value `{Libm} (rate : scalar) (fcfs : list float)
    (terminal_value : float) : result float :=
  discounted_fcf ← discount rate fcfs;
  p ← scalar_pow (one_plus rate) (length fcfs);
  let discounted_terminal_value := fdiv terminal_value p in
  let enterprise_value := fadd (sum discounted_fcf) discounted_terminal_value in
  mret enterprise_value.

(** [fcf_last * (1 + terminal_growth_rate) / (rate - terminal_growth_rate)] *)
Definition terminal_value_of (fcf_last : float)
    (rate terminal_growth_rate : scalar) : float :=
  fdiv (fmul fcf_last (fadd 1 (value terminal_growth_rate)))
       (fsub (value rate) (value terminal_growth_rate)).

Definition dcf_valuation `{Libm} (G : Globals)
    (net_income_projections : list float) (cash_flow : DataFrame)
    (discount_rate terminal_growth_rate : scalar) : result float :=
  ratio ← fcf_to_net_income_ratio G cash_flow;
  let free_cash_flow_projections :=
    (fun ni => fmul ni ratio) <$> net_income_projections in
  fcf_last ← item_last free_cash_flow_projections;
  let terminal_value :=
    terminal_value_of fcf_last discount_rate terminal_growth_rate in
  discounted_value discount_rate free_cash_flow_projections terminal_value.

(** ** Step 5: [sensitivity_analysis] *)

(** The body of the [for rate in discount_rates] loop: one [append]. *)
Definition sensitivity_step `{Libm} (free_cash_flow_projections : list float)
    (terminal_value : float) (results : list (scalar * float)) (rate : scalar)
  : result (list (scalar * float)) :=
  enterprise_value ←
    discounted_value rate free_cash_flow_projections terminal_value;
  mret (results ++ [(rate, enterprise_value)]).

Definition sensitivity_analysis `{Libm} (G : Globals)
    (net_income_projections : list float) (cash_flow : DataFrame)
    (discount_rates : list scalar) (terminal_growth_rate : scalar)
  : result (list (scalar * float)) :=
  let results := [] in
  ratio ← fcf_to_net_income_ratio G cash_flow;
  let free_cash_flow_projections :=
    (fun ni => fmul ni ratio) <$> net_income_projections in
  fcf_last ← item_last free_cash_flow_projections;
  rate0 ← item_first discount_rates;
  let terminal_value :=
    terminal_value_of fcf_last rate0 terminal_growth_rate in
  for_each (sensitivity_step free_cash_flow_projections terminal_value)
           results discount_rates.

(** ** The entry point

    The data flow of the [__main__] block, from the four tables
    [get_company_data] returned to the values the block prints and plots.
    The fetch itself, the prints and the two charts are outside the
    embedding. *)

(** [np.linspace(start, stop, num)], a [numpy.float64] array:
    [arange(num) * step + start] with [step = (stop - start) / (num - 1)]
    (or [arange(num) / (num - 1) * (stop - start) + start] when the step is
    zero), the last point then set to [stop]; a single point is
    [0.0 * (stop - start) + start]. *)
Definition linspace (start stop : float) (num : nat) : list scalar :=
  match num with
  | O => []
  | S O => [NpFloat (fadd (fmul 0 (fsub stop start)) start)]
  | S div =>
      let delta := fsub stop start in
      let step := fdiv delta (of_nat div) in
      let point i :=
        if PrimFloat.eqb step 0
        then fadd (fmul (fdiv (of_nat i) (of_nat div)) delta) start
        else fadd (fmul (of_nat i) step) start in
      ((fun i => NpFloat (point i)) <$> seq 0 div) ++ [NpFloat stop]
  end.

(** The module-level names the block has bound to tables by the time it
    calls the valuation. *)
Definition main_globals (income_statement balance_sheet cash_flow
    stock_data : DataFrame) : Globals :=
  <["income_statement" := income_statement]>
  (<["balance_sheet" := balance_sheet]>
   (<["cash_flow" := cash_flow]>
    (<["stock_data" := stock_data]> ∅))).

Record report : Type := Report {
  report_ratios : gmap string Series;
  report_revenue_projections : list float;
  report_net_income_projections : list float;
  report_enterprise_value : float;
  report_sensitivity_results : list (scalar * float);
  report_ev_sensitivity : list float
}.

Definition main `{Libm} (income_statement balance_sheet cash_flow
    stock_data : DataFrame) : result report :=
  let G := main_globals income_statement balance_sheet cash_flow stock_data in
  ratios ← calculate_ratios income_statement balance_sheet;
  let growth_rate := PyFloat 0.10 in
  net_profit_margin ← getitem ratios "net_profit_margin";
  projections ← project_financials income_statement net_profit_margin
                                   growth_rate default_years;
  let revenue_projections := projections.1 in
  let net_income_projections := projections.2 in
  let discount_rate := PyFloat 0.10 in
  let terminal_growth_rate := PyFloat 0.02 in
  enterprise_value ← dcf_valuation G net_income_projections cash_flow
                                   discount_rate terminal_growth_rate;
  let discount_rates := linspace 0.08 0.12 5 in
  sensitivity_results ← sensitivity_analysis G net_income_projections cash_flow
                                             discount_rates terminal_growth_rate;
  let ev_sensitivity := snd <$> sensitivity_results in
  mret (Report ratios revenue_projections net_income_projections
               enterprise_value sensitivity_results ev_sensitivity).

(** ** The valuation as the specification words it *)

(** [sum_upto n f] is the sum of [f i] over [i] in [0..n-1]. *)
Fixpoint sum_upto (n : nat) (f : nat → float) : float :=
  match n with
  | O => 0%float
  | S k => fadd (sum_upto k f) (f k)
  end.

(** Step 1: the free cash flow of period [i]. *)
Definition spec_fcf (nis : list float) (ratio : float) (i : nat) : float :=
  fmul (nth i nis 0%float) ratio.

(** Step 2: the terminal value, sized by the rate [tv_rate]. *)
Definition spec_terminal_value (nis : list float) (ratio : float)
    (tv_rate g : scalar) : float :=
  fdiv (fmul (spec_fcf nis ratio (length nis - 1)) (fadd 1 (value g)))
       (fsub (value tv_rate) (value g)).

(** Steps 3 to 5: period [i] discounted by [(1 + rate)^(i+1)], the terminal
    value by [(1 + rate)^n], and their sum. *)
Definition spec_discounted_value `{Libm} (nis : list float) (ratio : float)
    (terminal_value : float) (rate : scalar) : float :=
  fadd (sum_upto (length nis)
          (fun i => fdiv (spec_fcf nis ratio i)
                         (pow_value (fadd 1 (value rate)) (i + 1))))
       (fdiv terminal_value (pow_value (fadd 1 (value rate)) (length nis))).

(** A valuation proper sizes the terminal value by the discount rate. *)
Definition spec_enterprise_value `{Libm} (nis : list float) (ratio : float)
    (rate g : scalar) : float :=
  spec_discounted_value nis ratio (spec_terminal_value nis ratio rate g) rate.

(** The two comprehensions of [project_financials], each on its own. *)
Definition revenues `{Libm} (initial_revenue : float) (growth_rate : scalar)
    (years : Z) : result (list float) :=
  mapM (fun i => p ← scalar_pow (one_plus growth_rate) i;
                 mret (fmul initial_revenue p))
       (range years).

Definition net_incomes (net_profit_margin : Series) (revenue : list float)
  : result (list float) :=
  mapM (fun rev => margin ← item_last net_profit_margin;
                   mret (fmul rev margin))
       revenue.

(** None of the powers [(1 + rate) ** k], [1 <= k <= n], raises. *)
Definition no_overflow `{Libm} (rate : scalar) (n : nat) : Prop :=
  ∀ k : nat, (1 <= k <= n)%nat → overflows (one_plus rate) k = false.


(** [frame[key]] would raise KeyError. *)
Definition missing (frame : DataFrame) (key : string) : bool :=
  match frame !! key with
  | Some _ => false
  | None => true
  end.

(** The subscripts of [calculate_ratios] in the order the body evaluates
    them (repeats left out). *)
Definition required_columns (income_statement balance_sheet : DataFrame)
  : list (DataFrame * string) :=
  [ (income_statement, "Gross Profit"); (income_statement, "Total Revenue");
    (income_statement, "Operating Income"); (income_statement, "Net Income");
    (balance_sheet, "Total Liabilities");
    (balance_sheet, "Total Stockholder Equity") ].

(** ** Sample tables

    A two-period company, used to run the functions on concrete inputs. *)

Definition sample_income_statement : DataFrame :=
  <["Gross Profit" := [400; 450]%float]>
  (<["Operating Income" := [250; 300]%float]>
   (<["Net Income" := [90; 100]%float]>
    (<["Total Revenue" := [900; 1000]%float]> ∅))).

Definition sample_balance_sheet : DataFrame :=
  <["Total Liabilities" := [500; 600]%float]>
  (<["Total Stockholder Equity" := [250; 300]%float]> ∅).

Definition sample_cash_flow : DataFrame :=
  <["Free Cash Flow" := [80; 100]%float]> ∅.

Definition sample_globals : Globals :=
  <["income_statement" := sample_income_statement]> ∅.

(** The same module with another income statement bound. *)
Definition halved_income_statement : DataFrame :=
  <["Net Income" := [90; 50]%float]>
  (<["Total Revenue" := [900; 1000]%float]> ∅).

Definition halved_globals : Globals :=
  <["income_statement" := halved_income_statement]> ∅.



(** The sample company in a period without revenue. *)
Definition zero_revenue_income_statement : DataFrame :=
  <["Total Revenue" := [0; 1000]%float]> sample_income_statement.

(** * Properties *)

(** ** The result monad *)

Lemma mapM_Ok_Forall {A B} (f : A → result B) (h : A → B) (l : list A) :
  Forall (fun x => f x = Ok (h x)) l → mapM f l = Ok (h <$> l).
Proof.
  induction 1 as [|x l Hx _ IH]; [reflexivity|].
  cbn [mapM]. rewrite Hx, IH. reflexivity.
Qed.

Lemma mapM_Ok {A B} (f : A → result B) (h : A → B) (l : list A) :
  (∀ x, f x = Ok (h x)) → mapM f l = Ok (h <$> l).
Proof. intros Hf. apply mapM_Ok_Forall, Forall_forall. intros x _. apply Hf. Qed.

Lemma mapM_Raise_inv {A B} (f : A → result B) (l : list A) (e : exn) :
  mapM f l = Raise e → ∃ x, x ∈ l ∧ f x = Raise e.
Proof.
  induction l as [|x l IH]; [discriminate|]. cbn [mapM].
  destruct (f x) as [y|e'] eqn:Hx.
  - cbn [mbind result_bind]. destruct (mapM f l) as [ys|e'']; [discriminate|].
    cbn [mbind result_bind]. intros [= <-].
    destruct (IH eq_refl) as (x' & Hin & Hx'). exists x'.
    split; [right; exact Hin | exact Hx'].
  - cbn [mbind result_bind]. intros [= <-]. exists x.
    split; [left | exact Hx].
Qed.

Lemma mapM_Exists_raises {A B} (f : A → result B) (l : list A) :
  Exists (fun x => raises (f x)) l → raises (mapM f l).
Proof.
  induction 1 as [x l Hx | x l _ IH]; cbn [mapM].
  - destruct (f x); [contradiction | exact I].
  - destruct (f x); [|exact I]. cbn [mbind result_bind].
    destruct (mapM f l); [contradiction | exact I].
Qed.

Lemma mapM_Raise {A B} (f : A → result B) (e : exn) (l : list A) :
  l ≠ [] → (∀ x, f x = Raise e) → mapM f l = Raise e.
Proof.
  intros Hne Hf. destruct l as [|x l]; [contradiction|].
  cbn [mapM]. rewrite Hf. reflexivity.
Qed.

Lemma raises_Raise {A} (m : result A) :
  raises m → (∀ e, m = Raise e → e = OverflowError) → m = Raise OverflowError.
Proof.
  destruct m as [a|e]; [contradiction|]. intros _ He.
  rewrite (He e eq_refl). reflexivity.
Qed.

(** ** Python's [sum] and the indexed sum *)

Lemma sum_snoc (xs : list float) (x : float) :
  sum (xs ++ [x]) = fadd (sum xs) x.
Proof. unfold sum. rewrite foldl_app. reflexivity. Qed.

Lemma sum_upto_ext (n : nat) (f h : nat → float) :
  (∀ i, (i < n)%nat → f i = h i) → sum_upto n f = sum_upto n h.
Proof.
  induction n as [|n IH]; intros Hfh; simpl; [reflexivity|].
  rewrite IH by (intros i Hi; apply Hfh; lia).
  rewrite (Hfh n) by lia. reflexivity.
Qed.

Lemma sum_imap (f : nat → float → float) (xs : list float) :
  sum (imap f xs) = sum_upto (length xs) (fun i => f i (nth i xs 0%float)).
Proof.
  induction xs as [|x xs IH] using rev_ind; [reflexivity|].
  rewrite imap_app. cbn [imap]. rewrite sum_snoc, IH, length_app.
  cbn [length compose]. rewrite Nat.add_0_r, Nat.add_1_r. cbn [sum_upto].
  rewrite app_nth2, Nat.sub_diag by lia. cbn [nth].
  f_equal. apply sum_upto_ext. intros i Hi.
  rewrite app_nth1 by lia. reflexivity.
Qed.

Lemma nth_fmap_fmul (nis : list float) (ratio : float) (i : nat) :
  (i < length nis)%nat →
  nth i ((fun ni => fmul ni ratio) <$> nis) 0%float = spec_fcf nis ratio i.
Proof.
  intros Hi. unfold spec_fcf.
  rewrite (nth_indep _ 0%float (fmul 0 ratio))
    by (rewrite length_fmap; exact Hi).
  apply (map_nth (fun ni => fmul ni ratio)).
Qed.

Lemma item_last_fcf (nis : list float) (ratio : float) :
  nis ≠ [] →
  item_last ((fun ni => fmul ni ratio) <$> nis)
  = Ok (spec_fcf nis ratio (length nis - 1)).
Proof.
  intros Hne. unfold item_last, spec_fcf.
  rewrite fmap_last, last_lookup.
  destruct (nis !! pred (length nis)) as [x|] eqn:Hx.
  - simpl. do 2 f_equal. symmetry.
    apply nth_lookup_Some with (d := 0%float) in Hx.
    rewrite <- Hx. f_equal. lia.
  - apply lookup_ge_None in Hx. destruct nis; [contradiction | simpl in Hx; lia].
Qed.

Lemma fcf_to_net_income_ratio_readings (G : Globals)
    (cash_flow income_statement : DataFrame) (fcf_col ni_col : Series)
    (a b : float) :
  cash_flow !! "Free Cash Flow" = Some fcf_col → last fcf_col = Some a →
  G !! "income_statement" = Some income_statement →
  income_statement !! "Net Income" = Some ni_col → last ni_col = Some b →
  fcf_to_net_income_ratio G cash_flow = Ok (fdiv a b).
Proof.
  intros Hf Ha HG Hn Hb.
  unfold fcf_to_net_income_ratio, getitem, global, item_last.
  rewrite Hf. simpl. rewrite Ha. simpl. rewrite HG. simpl.
  rewrite Hn. simpl. rewrite Hb. reflexivity.
Qed.

(** ** Facts of binary64 arithmetic *)

Lemma Prim2SF_one : Prim2SF 1 = S754_finite false 4503599627370496 (-52).
Proof. vm_compute. reflexivity. Qed.

Lemma digits2_pos_shift (m : positive) :
  Zpos (digits2_pos (m * 4503599627370496)%positive)
  = (Zpos (digits2_pos m) + 52)%Z.
Proof. rewrite Pos.mul_comm. cbv [Pos.mul]. cbn [digits2_pos]. lia. Qed.

(** [x * 1.0] is [x], for every binary64 [x]. *)
Lemma fmul_1_r (x : float) : fmul x 1 = x.
Proof.
  apply Prim2SF_inj. rewrite mul_spec, Prim2SF_one.
  pose proof (Prim2SF_valid x) as Hvalid.
  destruct (Prim2SF x) as [s|s| |s m e];
    [destruct s; reflexivity | destruct s; reflexivity | reflexivity |].
  cbn [valid_binary] in Hvalid. unfold bounded, canonical_mantissa in Hvalid.
  apply andb_prop in Hvalid as [Hcanon Hbound].
  apply Z.eqb_eq in Hcanon.
  unfold SF64mul, SFmul, binary_round_aux.
  unfold shr_fexp at 1. cbn [Zdigits2].
  rewrite digits2_pos_shift.
  replace (Z.pos (digits2_pos m) + 52 + (e + -52))%Z
    with (Z.pos (digits2_pos m) + e)%Z by lia.
  rewrite Hcanon.
  replace (e - (e + -52))%Z with 52%Z by lia.
  rewrite Pos.mul_comm. cbv [Pos.mul].
  cbn [shr shr_record_of_loc SpecFloat.iter_pos shr_1 orb loc_of_shr_record
       shr_m round_nearest_even].
  unfold shr_fexp. cbn [Zdigits2].
  replace (e + -52 + 52)%Z with e by lia.
  rewrite Hcanon, Z.sub_diag. cbn [shr shr_record_of_loc shr_m].
  rewrite Hbound. destruct s; reflexivity.
Qed.

(** [x / 0.0] and [x / -0.0] are [inf], [-inf] or [nan], for every [x]. *)
Lemma fdiv_zero_not_finite (x z : float) :
  iszero z = true → isfinite (fdiv x z) = false.
Proof.
  unfold iszero, isfinite. rewrite div_spec.
  destruct (Prim2SF z) as [sz|sz| |sz mz ez]; try discriminate. intros _.
  destruct (Prim2SF x) as [s|s| |s m e]; reflexivity.
Qed.




(** ** The code for every C library *)

Section AnyLibm.
Context {libm : Libm}.

(** *** The power *)

Lemma value_one_plus (rate : scalar) :
  value (one_plus rate) = fadd 1 (value rate).
Proof. destruct rate; reflexivity. Qed.

Lemma scalar_pow_Ok (base : scalar) (k : nat) :
  overflows base k = false →
  scalar_pow base k = Ok (pow_value (value base) k).
Proof. intros Hk. unfold scalar_pow. rewrite Hk. reflexivity. Qed.

Lemma scalar_pow_overflows (base : scalar) (k : nat) :
  overflows base k = true → scalar_pow base k = Raise OverflowError.
Proof. intros Hk. unfold scalar_pow. rewrite Hk. reflexivity. Qed.

Lemma scalar_pow_Raise_inv (base : scalar) (k : nat) (e : exn) :
  scalar_pow base k = Raise e → e = OverflowError ∧ overflows base k = true.
Proof.
  unfold scalar_pow. destruct (overflows base k); [|discriminate].
  intros [= <-]. split; reflexivity.
Qed.

Lemma scalar_pow_Ok_inv (base : scalar) (k : nat) (p : float) :
  scalar_pow base k = Ok p →
  p = pow_value (value base) k ∧ overflows base k = false.
Proof.
  unfold scalar_pow. destruct (overflows base k); [discriminate|].
  intros [= <-]. split; reflexivity.
Qed.

Lemma overflows_0 (base : scalar) : overflows base 0 = false.
Proof.
  destruct base as [x|x]; [|reflexivity]. unfold overflows.
  cbn [pow_value]. replace (isinf 1) with false by (vm_compute; reflexivity).
  apply andb_false_r.
Qed.

Lemma no_overflow_numpy (x : float) (n : nat) : no_overflow (NpFloat x) n.
Proof. intros k _. reflexivity. Qed.

Lemma no_overflow_le (rate : scalar) (n m : nat) :
  (m <= n)%nat → no_overflow rate n → no_overflow rate m.
Proof. intros Hmn Hn k Hk. apply Hn. lia. Qed.

(** *** The discounting *)

Lemma elem_of_enumerate {A} (xs : list A) (i : nat) (x : A) :
  (i, x) ∈ enumerate xs ↔ xs !! i = Some x.
Proof.
  unfold enumerate. rewrite list_elem_of_lookup. split.
  - intros [j Hj]. rewrite list_lookup_imap in Hj.
    destruct (xs !! j) as [y|] eqn:Hy; [|discriminate].
    injection Hj as <- <-. exact Hy.
  - intros Hi. exists i. rewrite list_lookup_imap, Hi. reflexivity.
Qed.

Lemma fmap_enumerate {A B} (h : nat * A → B) (xs : list A) :
  h <$> enumerate xs = imap (fun i x => h (i, x)) xs.
Proof.
  unfold enumerate. apply list_eq. intros i.
  rewrite list_lookup_fmap, !list_lookup_imap.
  destruct (xs !! i); reflexivity.
Qed.

Lemma discount_Ok (rate : scalar) (fcfs : list float) :
  no_overflow rate (length fcfs) →
  discount rate fcfs
  = Ok (imap (fun i fcf => fdiv fcf (pow_value (fadd 1 (value rate)) (i + 1)))
             fcfs).
Proof.
  intros Hno. unfold discount.
  rewrite (mapM_Ok_Forall _
             (fun ifcf => fdiv ifcf.2
                               (pow_value (fadd 1 (value rate)) (ifcf.1 + 1)))).
  - rewrite fmap_enumerate. reflexivity.
  - apply Forall_forall. intros [i fcf] Hin.
    apply elem_of_enumerate, lookup_lt_Some in Hin.
    rewrite scalar_pow_Ok by (apply Hno; simpl; lia).
    rewrite value_one_plus. reflexivity.
Qed.

Lemma discount_Raise_inv (rate : scalar) (fcfs : list float) (e : exn) :
  discount rate fcfs = Raise e →
  e = OverflowError
  ∧ ∃ k, (1 <= k <= length fcfs)%nat ∧ overflows (one_plus rate) k = true.
Proof.
  unfold discount. intros Hraise.
  apply mapM_Raise_inv in Hraise as ([i fcf] & Hin & Hpow).
  apply elem_of_enumerate, lookup_lt_Some in Hin. cbn [fst snd] in Hpow.
  destruct (scalar_pow (one_plus rate) (i + 1)) as [p|e'] eqn:Hp;
    [discriminate|].
  cbn [mbind result_bind] in Hpow. injection Hpow as <-.
  apply scalar_pow_Raise_inv in Hp as [-> Hk].
  split; [reflexivity|]. exists (i + 1)%nat. split; [lia | exact Hk].
Qed.

Lemma discount_overflows (rate : scalar) (fcfs : list float) (k : nat) :
  (1 <= k <= length fcfs)%nat → overflows (one_plus rate) k = true →
  discount rate fcfs = Raise OverflowError.
Proof.
  intros Hk Hover. apply raises_Raise.
  - unfold discount. apply mapM_Exists_raises, Exists_exists.
    destruct (lookup_lt_is_Some_2 fcfs (k - 1)) as [fcf Hfcf]; [lia|].
    exists ((k - 1)%nat, fcf). split.
    + apply elem_of_enumerate. exact Hfcf.
    + cbn [fst snd]. replace (k - 1 + 1)%nat with k by lia.
      rewrite scalar_pow_overflows by exact Hover. exact I.
  - intros e He. apply discount_Raise_inv in He. tauto.
Qed.

(** The value the valuation and the body of the sweep share, in the
    indexed form. *)
Lemma discounted_value_Ok (rate : scalar) (nis : list float)
    (ratio tv : float) :
  no_overflow rate (length nis) →
  discounted_value rate ((fun ni => fmul ni ratio) <$> nis) tv
  = Ok (spec_discounted_value nis ratio tv rate).
Proof.
  intros Hno. unfold discounted_value, spec_discounted_value.
  rewrite discount_Ok by (rewrite length_fmap; exact Hno).
  cbn [mbind result_bind]. rewrite length_fmap.
  assert (Hlast : overflows (one_plus rate) (length nis) = false).
  { destruct (length nis) as [|n] eqn:Hlen; [apply overflows_0|].
    apply Hno. lia. }
  rewrite scalar_pow_Ok by exact Hlast. cbn [mbind result_bind].
  rewrite value_one_plus, sum_imap, length_fmap.
  unfold mret, result_ret. do 2 f_equal.
  apply sum_upto_ext. intros i Hi.
  rewrite nth_fmap_fmul by exact Hi. reflexivity.
Qed.

Lemma discounted_value_Raise_inv (rate : scalar) (fcfs : list float)
    (tv : float) (e : exn) :
  discounted_value rate fcfs tv = Raise e →
  e = OverflowError
  ∧ ∃ k, (1 <= k <= length fcfs)%nat ∧ overflows (one_plus rate) k = true.
Proof.
  unfold discounted_value.
  destruct (discount rate fcfs) as [ds|e'] eqn:Hd.
  - cbn [mbind result_bind].
    destruct (scalar_pow (one_plus rate) (length fcfs)) as [p|e'] eqn:Hp;
      [discriminate|].
    cbn [mbind result_bind]. intros [= <-].
    apply scalar_pow_Raise_inv in Hp as [-> Hk]. split; [reflexivity|].
    exists (length fcfs). split; [|exact Hk].
    destruct (length fcfs); [rewrite overflows_0 in Hk; discriminate | lia].
  - cbn [mbind result_bind]. intros [= <-].
    apply discount_Raise_inv in Hd. exact Hd.
Qed.

Lemma discounted_value_overflows (rate : scalar) (fcfs : list float)
    (tv : float) (k : nat) :
  (1 <= k <= length fcfs)%nat → overflows (one_plus rate) k = true →
  discounted_value rate fcfs tv = Raise OverflowError.
Proof.
  intros Hk Hover. unfold discounted_value.
  rewrite (discount_overflows rate fcfs k Hk Hover). reflexivity.
Qed.

Lemma discounted_value_Ok_inv (rate : scalar) (nis : list float)
    (ratio tv ev : float) :
  discounted_value rate ((fun ni => fmul ni ratio) <$> nis) tv = Ok ev →
  no_overflow rate (length nis) ∧ ev = spec_discounted_value nis ratio tv rate.
Proof.
  intros Hrun.
  assert (Hno : no_overflow rate (length nis)).
  { intros k Hk. destruct (overflows (one_plus rate) k) eqn:Hover;
      [|reflexivity].
    rewrite (discounted_value_overflows rate _ tv k) in Hrun;
      [discriminate | rewrite length_fmap; exact Hk | exact Hover]. }
  split; [exact Hno|].
  rewrite discounted_value_Ok in Hrun by exact Hno.
  injection Hrun as <-. reflexivity.
Qed.

(** *** [dcf_valuation] *)

Lemma dcf_valuation_run (G : Globals) (cash_flow : DataFrame)
    (nis : list float) (ratio : float) (r g : scalar) :
  fcf_to_net_income_ratio G cash_flow = Ok ratio →
  nis ≠ [] →
  dcf_valuation G nis cash_flow r g
  = discounted_value r ((fun ni => fmul ni ratio) <$> nis)
                     (spec_terminal_value nis ratio r g).
Proof.
  intros Hratio Hne. unfold dcf_valuation. rewrite Hratio.
  cbn [mbind result_bind]. rewrite item_last_fcf by exact Hne.
  reflexivity.
Qed.

Lemma dcf_valuation_Ok (G : Globals) (cash_flow : DataFrame)
    (nis : list float) (ratio : float) (r g : scalar) :
  fcf_to_net_income_ratio G cash_flow = Ok ratio →
  nis ≠ [] →
  no_overflow r (length nis) →
  dcf_valuation G nis cash_flow r g = Ok (spec_enterprise_value nis ratio r g).
Proof.
  intros Hratio Hne Hno.
  rewrite (dcf_valuation_run G cash_flow nis ratio) by assumption.
  apply discounted_value_Ok. exact Hno.
Qed.

Lemma dcf_valuation_overflows (G : Globals) (cash_flow : DataFrame)
    (nis : list float) (ratio : float) (r g : scalar) (k : nat) :
  fcf_to_net_income_ratio G cash_flow = Ok ratio →
  (1 <= k <= length nis)%nat →
  overflows (one_plus r) k = true →
  dcf_valuation G nis cash_flow r g = Raise OverflowError.
Proof.
  intros Hratio Hk Hover.
  assert (Hne : nis ≠ []) by (intros ->; simpl in Hk; lia).
  rewrite (dcf_valuation_run G cash_flow nis ratio) by assumption.
  apply (discounted_value_overflows _ _ _ k); [|exact Hover].
  rewrite length_fmap. exact Hk.
Qed.

(** C1.  For a non-empty projection and [discount_rate >
    terminal_growth_rate], as long as none of the powers
    [(1 + discount_rate) ** k], [k <= n], overflows, [dcf_valuation] returns
    the sum over [i] in [0..n-1] of [fcf i / (1 + discount_rate)^(i+1)] plus
    [terminal_value / (1 + discount_rate)^n], in binary64 arithmetic and in
    this order, where [fcf i = net_income_projections[i] * ratio] and
    [terminal_value = fcf (n-1) * (1 + g) / (discount_rate - g)]; the
    exponent of period [0] is [1].  When one of the powers overflows (a
    Python float rate) the call raises OverflowError instead. *)
Theorem dcf_valuation_formula (G : Globals) (cash_flow : DataFrame)
    (net_income_projections : list float) (ratio : float)
    (discount_rate terminal_growth_rate : scalar) :
  fcf_to_net_income_ratio G cash_flow = Ok ratio →
  net_income_projections ≠ [] →
  PrimFloat.ltb (value terminal_growth_rate) (value discount_rate) = true →
  let n := length net_income_projections in
  let fcf i := fmul (nth i net_income_projections 0%float) ratio in
  let terminal_value :=
    fdiv (fmul (fcf (n - 1)%nat) (fadd 1 (value terminal_growth_rate)))
         (fsub (value discount_rate) (value terminal_growth_rate)) in
  let power k := pow_value (fadd 1 (value discount_rate)) k in
  (no_overflow discount_rate n →
   dcf_valuation G net_income_projections cash_flow
                 discount_rate terminal_growth_rate
   = Ok (fadd (sum_upto n (fun i => fdiv (fcf i) (power (i + 1)%nat)))
              (fdiv terminal_value (power n))))
  ∧ (∀ k : nat, (1 <= k <= n)%nat →
       overflows (one_plus discount_rate) k = true →
       dcf_valuation G net_income_projections cash_flow
                     discount_rate terminal_growth_rate
       = Raise OverflowError).
Proof.
  intros Hratio Hne _ n fcf terminal_value power. split.
  - intros Hno. apply (dcf_valuation_Ok G cash_flow _ ratio); assumption.
  - intros k Hk Hover.
    apply (dcf_valuation_overflows G cash_flow _ ratio _ _ k); assumption.
Qed.


(** *** What the valuation depends on *)

(** The result of [dcf_valuation], and of [sensitivity_analysis], is a
    function of the arguments and of the table bound to the module-level
    name [income_statement]; no other binding of the module is read. *)
Lemma dcf_valuation_deterministic (G1 G2 : Globals)
    (net_income_projections : list float) (cash_flow : DataFrame)
    (discount_rate terminal_growth_rate : scalar)
    (discount_rates : list scalar) :
  G1 !! "income_statement" = G2 !! "income_statement" →
  dcf_valuation G1 net_income_projections cash_flow
                discount_rate terminal_growth_rate
  = dcf_valuation G2 net_income_projections cash_flow
                  discount_rate terminal_growth_rate
  ∧ sensitivity_analysis G1 net_income_projections cash_flow
                         discount_rates terminal_growth_rate
    = sensitivity_analysis G2 net_income_projections cash_flow
                           discount_rates terminal_growth_rate.
Proof.
  intros HG.
  assert (Hratio : fcf_to_net_income_ratio G1 cash_flow
                   = fcf_to_net_income_ratio G2 cash_flow).
  { unfold fcf_to_net_income_ratio, global. rewrite HG. reflexivity. }
  unfold dcf_valuation, sensitivity_analysis. rewrite Hratio.
  split; reflexivity.
Qed.

(** *** The rate sweep *)

Section Sweep.
Variables (nis : list float) (ratio tv : float).
#[local] Abbreviation fcfs := ((fun ni => fmul ni ratio) <$> nis).
#[local] Abbreviation pair_of :=
  (fun rate : scalar => (rate, spec_discounted_value nis ratio tv rate)).

Lemma sensitivity_step_Ok (results : list (scalar * float)) (rate : scalar) :
  no_overflow rate (length nis) →
  sensitivity_step fcfs tv results rate = Ok (results ++ [pair_of rate]).
Proof.
  intros Hrate. unfold sensitivity_step.
  rewrite discounted_value_Ok by exact Hrate. reflexivity.
Qed.

Lemma sensitivity_step_Ok_inv (results out : list (scalar * float))
    (rate : scalar) :
  sensitivity_step fcfs tv results rate = Ok out →
  no_overflow rate (length nis).
Proof.
  unfold sensitivity_step.
  destruct (discounted_value rate fcfs tv) as [ev|e] eqn:Hev; [|discriminate].
  intros _. apply discounted_value_Ok_inv in Hev. tauto.
Qed.

Lemma sensitivity_step_Raise_inv (results : list (scalar * float))
    (rate : scalar) (e : exn) :
  sensitivity_step fcfs tv results rate = Raise e →
  e = OverflowError
  ∧ ∃ k, (1 <= k <= length nis)%nat ∧ overflows (one_plus rate) k = true.
Proof.
  unfold sensitivity_step.
  destruct (discounted_value rate fcfs tv) as [ev|e'] eqn:Hev; [discriminate|].
  cbn [mbind result_bind]. intros [= <-].
  apply discounted_value_Raise_inv in Hev. rewrite length_fmap in Hev.
  exact Hev.
Qed.

(** The loop appends one pair per rate, left to right, and stops at the
    first rate one of whose powers overflows. *)
Lemma sensitivity_loop_Ok (results : list (scalar * float))
    (rates : list scalar) :
  Forall (fun rate => no_overflow rate (length nis)) rates →
  for_each (sensitivity_step fcfs tv) results rates
  = Ok (results ++ (pair_of <$> rates)).
Proof.
  intros Hall. revert results.
  induction Hall as [|rate rates Hrate _ IH]; intros results.
  - cbn. rewrite app_nil_r. reflexivity.
  - cbn [for_each]. rewrite sensitivity_step_Ok by exact Hrate.
    cbn [mbind result_bind]. rewrite IH, <- app_assoc. reflexivity.
Qed.

Lemma sensitivity_loop_Raise_inv (results : list (scalar * float))
    (rates : list scalar) (e : exn) :
  for_each (sensitivity_step fcfs tv) results rates = Raise e →
  e = OverflowError
  ∧ ∃ rate k, rate ∈ rates ∧ (1 <= k <= length nis)%nat
              ∧ overflows (one_plus rate) k = true.
Proof.
  revert results. induction rates as [|rate rates IH]; intros results;
    [discriminate|].
  cbn [for_each].
  destruct (sensitivity_step fcfs tv results rate) as [out|e'] eqn:Hstep.
  - cbn [mbind result_bind]. intros Hrest.
    destruct (IH _ Hrest) as (-> & rate' & k & Hin & Hk & Hover).
    split; [reflexivity|]. exists rate', k.
    split; [right; exact Hin | tauto].
  - cbn [mbind result_bind]. intros [= <-].
    apply sensitivity_step_Raise_inv in Hstep as (-> & k & Hk & Hover).
    split; [reflexivity|]. exists rate, k. split; [left | tauto].
Qed.

Lemma sensitivity_loop_Ok_inv (results out : list (scalar * float))
    (rates : list scalar) :
  for_each (sensitivity_step fcfs tv) results rates = Ok out →
  Forall (fun rate => no_overflow rate (length nis)) rates.
Proof.
  revert results. induction rates as [|rate rates IH]; intros results;
    [constructor|].
  cbn [for_each].
  destruct (sensitivity_step fcfs tv results rate) as [out'|e'] eqn:Hstep;
    [|discriminate].
  cbn [mbind result_bind]. intros Hrest. constructor.
  - exact (sensitivity_step_Ok_inv _ _ _ Hstep).
  - exact (IH _ Hrest).
Qed.

Lemma sensitivity_loop_overflows (results : list (scalar * float))
    (rates : list scalar) (rate : scalar) (k : nat) :
  rate ∈ rates → (1 <= k <= length nis)%nat →
  overflows (one_plus rate) k = true →
  for_each (sensitivity_step fcfs tv) results rates = Raise OverflowError.
Proof.
  intros Hin Hk Hover.
  destruct (for_each (sensitivity_step fcfs tv) results rates)
    as [out|e] eqn:Hrun.
  - apply sensitivity_loop_Ok_inv in Hrun.
    rewrite Forall_forall in Hrun. specialize (Hrun rate Hin k Hk).
    congruence.
  - apply sensitivity_loop_Raise_inv in Hrun as [-> _]. reflexivity.
Qed.
End Sweep.

Lemma sensitivity_analysis_run (G : Globals) (cash_flow : DataFrame)
    (nis : list float) (ratio : float) (first_rate : scalar)
    (other_rates : list scalar) (g : scalar) :
  fcf_to_net_income_ratio G cash_flow = Ok ratio →
  nis ≠ [] →
  sensitivity_analysis G nis cash_flow (first_rate :: other_rates) g
  = for_each (sensitivity_step ((fun ni => fmul ni ratio) <$> nis)
                               (spec_terminal_value nis ratio first_rate g))
             [] (first_rate :: other_rates).
Proof.
  intros Hratio Hne. unfold sensitivity_analysis. rewrite Hratio.
  cbn [mbind result_bind]. rewrite item_last_fcf by exact Hne.
  reflexivity.
Qed.

(** What the two functions do before the first power: the same lines, with
    the same outcome. *)
Lemma before_the_rates (G : Globals) (nis : list float)
    (cash_flow : DataFrame) :
  (∃ e, fcf_to_net_income_ratio G cash_flow = Raise e
        ∧ (∀ r g, dcf_valuation G nis cash_flow r g = Raise e)
        ∧ (∀ rates g, sensitivity_analysis G nis cash_flow rates g = Raise e))
  ∨ (∃ ratio, fcf_to_net_income_ratio G cash_flow = Ok ratio ∧ nis = []
        ∧ (∀ r g, dcf_valuation G nis cash_flow r g = Raise IndexError)
        ∧ (∀ rates g,
             sensitivity_analysis G nis cash_flow rates g = Raise IndexError))
  ∨ (∃ ratio, fcf_to_net_income_ratio G cash_flow = Ok ratio ∧ nis ≠ []).
Proof.
  destruct (fcf_to_net_income_ratio G cash_flow) as [ratio|e] eqn:Hratio.
  - right. destruct nis as [|ni nis'].
    + left. exists ratio. split; [reflexivity|]. split; [reflexivity|].
      unfold dcf_valuation, sensitivity_analysis. rewrite Hratio.
      split; reflexivity.
    + right. exists ratio. split; [reflexivity | discriminate].
  - left. exists e. split; [reflexivity|].
    unfold dcf_valuation, sensitivity_analysis. rewrite Hratio.
    split; reflexivity.
Qed.

(** C4.  For a non-empty sequence of rates, [sensitivity_analysis] sizes
    one terminal value, with the FIRST rate in its divisor, and uses it for
    every rate: the pair of a rate holds the cash flows discounted by
    [(1 + rate)^(i+1)] plus that one terminal value discounted by
    [(1 + rate)^n].  The sweep returns these pairs when no power overflows,
    and raises OverflowError when one does (a Python float rate). *)
Theorem sensitivity_analysis_fixed_terminal_value (G : Globals)
    (cash_flow : DataFrame) (net_income_projections : list float)
    (ratio : float) (first_rate : scalar) (other_rates : list scalar)
    (terminal_growth_rate : scalar) :
  fcf_to_net_income_ratio G cash_flow = Ok ratio →
  net_income_projections ≠ [] →
  let n := length net_income_projections in
  let fcf i := fmul (nth i net_income_projections 0%float) ratio in
  let terminal_value :=
    fdiv (fmul (fcf (n - 1)%nat) (fadd 1 (value terminal_growth_rate)))
         (fsub (value first_rate) (value terminal_growth_rate)) in
  let power rate k := pow_value (fadd 1 (value rate)) k in
  let swept rate :=
    fadd (sum_upto n (fun i => fdiv (fcf i) (power rate (i + 1)%nat)))
         (fdiv terminal_value (power rate n)) in
  (Forall (fun rate => no_overflow rate n) (first_rate :: other_rates) →
   sensitivity_analysis G net_income_projections cash_flow
                        (first_rate :: other_rates) terminal_growth_rate
   = Ok ((fun rate => (rate, swept rate)) <$> first_rate :: other_rates))
  ∧ (∀ (rate : scalar) (k : nat),
       rate ∈ first_rate :: other_rates → (1 <= k <= n)%nat →
       overflows (one_plus rate) k = true →
       sensitivity_analysis G net_income_projections cash_flow
                            (first_rate :: other_rates) terminal_growth_rate
       = Raise OverflowError).
Proof.
  intros Hratio Hne n fcf terminal_value power swept.
  rewrite (sensitivity_analysis_run G cash_flow _ ratio) by assumption.
  split.
  - intros Hall. rewrite sensitivity_loop_Ok by exact Hall. reflexivity.
  - intros rate k Hin Hk Hover.
    apply (sensitivity_loop_overflows _ _ _ _ _ rate k); assumption.
Qed.

(** C7, as the code has it.  For every NON-EMPTY sequence of rates none of
    whose powers overflows (the readings of the ratio present, the
    projection non-empty) the call returns exactly one pair per input rate,
    in input order: the rates of the output pairs are the input sequence,
    so the [i]-th pair carries the [i]-th rate. *)
Theorem sensitivity_analysis_one_pair_per_rate (G : Globals)
    (cash_flow : DataFrame) (net_income_projections : list float)
    (ratio : float) (discount_rates : list scalar)
    (terminal_growth_rate : scalar) :
  fcf_to_net_income_ratio G cash_flow = Ok ratio →
  net_income_projections ≠ [] →
  discount_rates ≠ [] →
  Forall (fun rate => no_overflow rate (length net_income_projections))
         discount_rates →
  ∃ results : list (scalar * float),
    sensitivity_analysis G net_income_projections cash_flow
                         discount_rates terminal_growth_rate = Ok results
    ∧ length results = length discount_rates
    ∧ results.*1 = discount_rates
    ∧ ∀ (i : nat) (rate : scalar),
        discount_rates !! i = Some rate →
        ∃ enterprise_value, results !! i = Some (rate, enterprise_value).
Proof.
  intros Hratio Hne Hrates Hall.
  destruct discount_rates as [|first_rate other_rates]; [contradiction|].
  rewrite (sensitivity_analysis_run G cash_flow _ ratio) by assumption.
  rewrite sensitivity_loop_Ok by exact Hall. cbn [app].
  eexists. split; [reflexivity|].
  split; [apply length_fmap|]. split.
  - rewrite <- list_fmap_compose. apply list_fmap_id.
  - intros i rate Hi. eexists. rewrite list_lookup_fmap, Hi. reflexivity.
Qed.


(** C10.  With an EMPTY sequence of rates [sensitivity_analysis] never
    returns (so it does not return the empty result): every call raises,
    and when the readings of the ratio are present and the projection is
    non-empty the exception is the IndexError of [discount_rates[0]], raised
    before the loop has appended any pair. *)
Theorem sensitivity_analysis_empty_rates (G : Globals)
    (net_income_projections : list float) (cash_flow : DataFrame)
    (terminal_growth_rate : scalar) :
  raises (sensitivity_analysis G net_income_projections cash_flow []
            terminal_growth_rate)
  ∧ item_first (@nil scalar) = Raise IndexError
  ∧ ∀ ratio : float,
      fcf_to_net_income_ratio G cash_flow = Ok ratio →
      net_income_projections ≠ [] →
      sensitivity_analysis G net_income_projections cash_flow []
        terminal_growth_rate = Raise IndexError.
Proof.
  unfold sensitivity_analysis. split; [|split; [reflexivity|]].
  - destruct (fcf_to_net_income_ratio G cash_flow) as [ratio|e]; simpl; [|tauto].
    destruct (item_last _) as [fcf_last|e]; simpl; tauto.
  - intros ratio -> Hne. simpl.
    rewrite item_last_fcf by exact Hne. reflexivity.
Qed.

Lemma sensitivity_analysis_nil_raises (G : Globals) (nis : list float)
    (cash_flow : DataFrame) (g : scalar) :
  raises (sensitivity_analysis G nis cash_flow [] g).
Proof.
  unfold sensitivity_analysis.
  destruct (fcf_to_net_income_ratio G cash_flow) as [ratio|e]; simpl; [|tauto].
  destruct (item_last _) as [fcf_last|e]; simpl; tauto.
Qed.

(** X16.  More rates at the end of the list leave the pairs already there
    as they are: when the sweep of [rates] returns, the sweep of
    [rates ++ more] returns the same pairs followed by one pair per rate of
    [more], in order, unless a power of a rate of [more] overflows; then it
    raises OverflowError and no pair is returned. *)
Theorem sensitivity_analysis_extends (G : Globals)
    (net_income_projections : list float) (cash_flow : DataFrame)
    (rates more : list scalar) (terminal_growth_rate : scalar)
    (results : list (scalar * float)) :
  sensitivity_analysis G net_income_projections cash_flow rates
                       terminal_growth_rate = Ok results →
  (Forall (fun rate => no_overflow rate (length net_income_projections)) more →
   ∃ more_results : list (scalar * float),
     sensitivity_analysis G net_income_projections cash_flow (rates ++ more)
                          terminal_growth_rate = Ok (results ++ more_results)
     ∧ more_results.*1 = more)
  ∧ (∀ (rate : scalar) (k : nat),
       rate ∈ more → (1 <= k <= length net_income_projections)%nat →
       overflows (one_plus rate) k = true →
       sensitivity_analysis G net_income_projections cash_flow (rates ++ more)
                            terminal_growth_rate = Raise OverflowError).
Proof.
  intros Hrun.
  destruct (before_the_rates G net_income_projections cash_flow)
    as [(e & _ & _ & Hsweep)
       |[(ratio & _ & _ & _ & Hsweep) | (ratio & Hratio & Hne)]];
    [rewrite Hsweep in Hrun; discriminate
    |rewrite Hsweep in Hrun; discriminate|].
  destruct rates as [|first_rate other_rates].
  { pose proof (sensitivity_analysis_nil_raises G net_income_projections
                  cash_flow terminal_growth_rate) as Hnil.
    rewrite Hrun in Hnil. contradiction. }
  rewrite (sensitivity_analysis_run G cash_flow _ ratio) in Hrun
    by assumption.
  pose proof (sensitivity_loop_Ok_inv _ _ _ _ _ _ Hrun) as Hall.
  rewrite sensitivity_loop_Ok in Hrun by exact Hall. injection Hrun as <-.
  rewrite <- app_comm_cons.
  rewrite (sensitivity_analysis_run G cash_flow _ ratio) by assumption.
  split.
  - intros Hmore.
    rewrite sensitivity_loop_Ok
      by (rewrite app_comm_cons; apply Forall_app; split; assumption).
    rewrite app_comm_cons, fmap_app. eexists. split; [reflexivity|].
    rewrite <- list_fmap_compose. apply list_fmap_id.
  - intros rate k Hin Hk Hover.
    apply (sensitivity_loop_overflows _ _ _ _ _ rate k);
      [|exact Hk | exact Hover].
    rewrite app_comm_cons. apply elem_of_app. right. exact Hin.
Qed.

(** X20.  With [numpy.float64] rates, the kind [np.linspace] hands to the
    sweep, no power raises: the valuation returns the value of the formula
    and the sweep returns one pair per rate, for every non-empty sequence
    of rates, infinite and NaN rates and the rate [-1] included. *)
Theorem sensitivity_analysis_numpy_rates (G : Globals)
    (cash_flow : DataFrame) (net_income_projections : list float)
    (ratio rate : float) (rates : list float)
    (terminal_growth_rate : scalar) :
  fcf_to_net_income_ratio G cash_flow = Ok ratio →
  net_income_projections ≠ [] →
  dcf_valuation G net_income_projections cash_flow
                (NpFloat rate) terminal_growth_rate
  = Ok (spec_enterprise_value net_income_projections ratio
          (NpFloat rate) terminal_growth_rate)
  ∧ ∃ results : list (scalar * float),
      sensitivity_analysis G net_income_projections cash_flow
                           (NpFloat <$> rate :: rates) terminal_growth_rate
      = Ok results
      ∧ results.*1 = NpFloat <$> rate :: rates
      ∧ results.*2 !! 0%nat
        = Some (spec_enterprise_value net_income_projections ratio
                  (NpFloat rate) terminal_growth_rate).
Proof.
  intros Hratio Hne. split.
  - apply dcf_valuation_Ok; [assumption | assumption | apply no_overflow_numpy].
  - cbn [fmap list_fmap].
    rewrite (sensitivity_analysis_run G cash_flow _ ratio) by assumption.
    rewrite sensitivity_loop_Ok.
    + eexists. split; [reflexivity|]. cbn [app]. split; [|reflexivity].
      rewrite <- list_fmap_compose. apply list_fmap_id.
    + constructor; [apply no_overflow_numpy|].
      apply Forall_fmap, Forall_forall. intros x _. apply no_overflow_numpy.
Qed.

(** *** [dcf_valuation]: failures *)

(** X8.  [dcf_valuation] raises exactly when line 44 does, with the same
    exception; or, line 44 having succeeded, when the projection is empty
    (IndexError of [free_cash_flow_projections[-1]]); or, with a non-empty
    projection, when one of the powers [(1 + discount_rate) ** k],
    [1 <= k <= n], overflows (OverflowError). *)
Theorem dcf_valuation_raises_iff (G : Globals)
    (net_income_projections : list float) (cash_flow : DataFrame)
    (discount_rate terminal_growth_rate : scalar) (e : exn) :
  dcf_valuation G net_income_projections cash_flow
                discount_rate terminal_growth_rate = Raise e
  ↔ fcf_to_net_income_ratio G cash_flow = Raise e
    ∨ (¬ raises (fcf_to_net_income_ratio G cash_flow)
       ∧ net_income_projections = [] ∧ e = IndexError)
    ∨ (¬ raises (fcf_to_net_income_ratio G cash_flow)
       ∧ e = OverflowError
       ∧ ∃ k : nat, (1 <= k <= length net_income_projections)%nat
                    ∧ overflows (one_plus discount_rate) k = true).
Proof.
  destruct (before_the_rates G net_income_projections cash_flow)
    as [(e' & Hratio & Hdcf & _)
       |[(ratio & Hratio & Hnil & Hdcf & _) | (ratio & Hratio & Hne)]].
  - rewrite Hdcf, Hratio. cbn [raises]. split.
    + intros [= ->]. left. reflexivity.
    + intros [H | [(Habs & _) | (Habs & _)]]; [exact H | tauto | tauto].
  - rewrite Hdcf, Hratio. cbn [raises]. split.
    + intros [= <-]. right. left. tauto.
    + intros [H | [(_ & _ & ->) | (_ & _ & k & Hk & _)]];
        [discriminate | reflexivity |].
      subst net_income_projections. simpl in Hk. lia.
  - rewrite Hratio. cbn [raises].
    rewrite (dcf_valuation_run G cash_flow _ ratio) by assumption. split.
    + intros Hraise. apply discounted_value_Raise_inv in Hraise.
      rewrite length_fmap in Hraise. right. right. tauto.
    + intros [H | [(_ & Hnil & _) | (_ & -> & k & Hk & Hover)]];
        [discriminate | contradiction |].
      apply (discounted_value_overflows _ _ _ k); [|exact Hover].
      rewrite length_fmap. exact Hk.
Qed.

Lemma fcf_to_net_income_ratio_no_overflow (G : Globals)
    (cash_flow : DataFrame) :
  fcf_to_net_income_ratio G cash_flow ≠ Raise OverflowError.
Proof.
  unfold fcf_to_net_income_ratio, getitem, global, item_last.
  destruct (cash_flow !! "Free Cash Flow") as [fcf|];
    cbn [mbind result_bind]; [|discriminate].
  destruct (last fcf); cbn [mbind result_bind]; [|discriminate].
  destruct (G !! "income_statement") as [income_statement|];
    cbn [mbind result_bind]; [|discriminate].
  destruct (income_statement !! "Net Income") as [ni|];
    cbn [mbind result_bind]; [|discriminate].
  destruct (last ni); cbn [mbind result_bind]; discriminate.
Qed.

(** X9.  OverflowError is the one exception of [dcf_valuation] that the
    rates have a part in: when a call raises another exception, the call
    with any other two rates raises the same exception, and so does
    [sensitivity_analysis] on the same tables and projection, for every
    sequence of rates. *)
Theorem dcf_valuation_exception_ignores_rates (G : Globals)
    (net_income_projections : list float) (cash_flow : DataFrame)
    (discount_rate terminal_growth_rate : scalar) (e : exn) :
  dcf_valuation G net_income_projections cash_flow
                discount_rate terminal_growth_rate = Raise e →
  e ≠ OverflowError →
  (∀ discount_rate' terminal_growth_rate' : scalar,
     dcf_valuation G net_income_projections cash_flow
                   discount_rate' terminal_growth_rate' = Raise e)
  ∧ (∀ (discount_rates : list scalar) (terminal_growth_rate' : scalar),
       sensitivity_analysis G net_income_projections cash_flow
                            discount_rates terminal_growth_rate' = Raise e).
Proof.
  intros Hraise Hother.
  destruct (before_the_rates G net_income_projections cash_flow)
    as [(e' & _ & Hdcf & Hsweep)
       |[(ratio & _ & _ & Hdcf & Hsweep) | (ratio & Hratio & Hne)]].
  - rewrite Hdcf in Hraise. injection Hraise as <-. split; assumption.
  - rewrite Hdcf in Hraise. injection Hraise as <-. split; assumption.
  - rewrite (dcf_valuation_run G cash_flow _ ratio) in Hraise by assumption.
    apply discounted_value_Raise_inv in Hraise as [-> _]. contradiction.
Qed.

(** *** [project_financials] *)

Lemma range_nil (years : Z) : (years <= 0)%Z → range years = [].
Proof.
  intros Hy. unfold range. replace (Z.to_nat years) with O by lia. reflexivity.
Qed.

Lemma range_not_nil (years : Z) : (0 < years)%Z → range years ≠ [].
Proof.
  intros Hy. unfold range.
  destruct (Z.to_nat years) eqn:Hn; [lia | discriminate].
Qed.

Lemma elem_of_range (years : Z) (i : nat) :
  i ∈ range years ↔ (Z.of_nat i < years)%Z.
Proof. unfold range. rewrite elem_of_seq. lia. Qed.

Lemma range_lookup (years : Z) (i : nat) :
  (Z.of_nat i < years)%Z → range years !! i = Some i.
Proof. intros Hi. unfold range. apply lookup_seq. lia. Qed.

Lemma project_financials_run (income_statement : DataFrame)
    (total_revenue net_profit_margin : Series) (initial_revenue : float)
    (growth_rate : scalar) (years : Z) :
  income_statement !! "Total Revenue" = Some total_revenue →
  last total_revenue = Some initial_revenue →
  project_financials income_statement net_profit_margin growth_rate years
  = (revenue ← revenues initial_revenue growth_rate years;
     net_income ← net_incomes net_profit_margin revenue;
     mret (revenue, net_income)).
Proof.
  intros Hcol Hlast. unfold project_financials, getitem, item_last.
  rewrite Hcol. cbn [mbind result_bind]. rewrite Hlast. reflexivity.
Qed.

Lemma revenues_Ok (initial_revenue : float) (growth_rate : scalar)
    (years : Z) :
  no_overflow growth_rate (Z.to_nat years - 1) →
  revenues initial_revenue growth_rate years
  = Ok ((fun i => fmul initial_revenue
                       (pow_value (fadd 1 (value growth_rate)) i))
        <$> range years).
Proof.
  intros Hno. unfold revenues. apply mapM_Ok_Forall, Forall_forall.
  intros i Hi. apply elem_of_range in Hi.
  assert (Hover : overflows (one_plus growth_rate) i = false).
  { destruct i as [|i]; [apply overflows_0 | apply Hno; lia]. }
  rewrite scalar_pow_Ok by exact Hover. rewrite value_one_plus. reflexivity.
Qed.

Lemma revenues_Raise_inv (initial_revenue : float) (growth_rate : scalar)
    (years : Z) (e : exn) :
  revenues initial_revenue growth_rate years = Raise e →
  e = OverflowError
  ∧ ∃ i : nat, (Z.of_nat i < years)%Z
               ∧ overflows (one_plus growth_rate) i = true.
Proof.
  unfold revenues. intros Hraise.
  apply mapM_Raise_inv in Hraise as (i & Hi & Hpow).
  apply elem_of_range in Hi.
  destruct (scalar_pow (one_plus growth_rate) i) as [p|e'] eqn:Hp;
    [discriminate|].
  cbn [mbind result_bind] in Hpow. injection Hpow as <-.
  apply scalar_pow_Raise_inv in Hp as [-> Hover].
  split; [reflexivity|]. exists i. split; assumption.
Qed.

Lemma revenues_overflows (initial_revenue : float) (growth_rate : scalar)
    (years : Z) (i : nat) :
  (Z.of_nat i < years)%Z → overflows (one_plus growth_rate) i = true →
  revenues initial_revenue growth_rate years = Raise OverflowError.
Proof.
  intros Hi Hover. apply raises_Raise.
  - unfold revenues. apply mapM_Exists_raises, Exists_exists.
    exists i. split; [apply elem_of_range; exact Hi|].
    rewrite scalar_pow_overflows by exact Hover. exact I.
  - intros e He. apply revenues_Raise_inv in He. tauto.
Qed.

Lemma revenues_Ok_inv (initial_revenue : float) (growth_rate : scalar)
    (years : Z) (revenue : list float) :
  revenues initial_revenue growth_rate years = Ok revenue →
  no_overflow growth_rate (Z.to_nat years - 1).
Proof.
  intros Hrun k Hk.
  destruct (overflows (one_plus growth_rate) k) eqn:Hover; [|reflexivity].
  rewrite (revenues_overflows _ _ _ k) in Hrun;
    [discriminate | lia | exact Hover].
Qed.

Lemma net_incomes_Ok (net_profit_margin : Series) (margin : float)
    (revenue : list float) :
  last net_profit_margin = Some margin →
  net_incomes net_profit_margin revenue
  = Ok ((fun rev => fmul rev margin) <$> revenue).
Proof.
  intros Hm. unfold net_incomes, item_last. rewrite Hm.
  apply mapM_Ok. reflexivity.
Qed.

Lemma net_incomes_Raise (revenue : list float) :
  revenue ≠ [] → net_incomes [] revenue = Raise IndexError.
Proof. intros Hne. unfold net_incomes. apply mapM_Raise; [exact Hne | reflexivity]. Qed.

(** C6.  With a last revenue reading [initial_revenue], a last margin
    [margin], [growth_rate > -1] and [years > 0]: as long as none of the
    powers [(1 + growth_rate) ** i], [i < years], overflows,
    [project_financials] returns two sequences of length [years] with
    [revenue[i] = initial_revenue * (1 + growth_rate)^i] and
    [net_income[i] = revenue[i] * margin] in binary64 arithmetic, for every
    [i < years]; in particular [revenue[0]] is [initial_revenue] itself.
    When one of the powers overflows (a Python float rate) the call raises
    OverflowError instead. *)
Theorem project_financials_spec (income_statement : DataFrame)
    (total_revenue net_profit_margin : Series)
    (initial_revenue margin : float) (growth_rate : scalar) (years : Z) :
  income_statement !! "Total Revenue" = Some total_revenue →
  last total_revenue = Some initial_revenue →
  last net_profit_margin = Some margin →
  PrimFloat.ltb (-1) (value growth_rate) = true →
  (0 < years)%Z →
  (no_overflow growth_rate (Z.to_nat years - 1) →
   ∃ revenue net_income : list float,
     project_financials income_statement net_profit_margin growth_rate years
     = Ok (revenue, net_income)
     ∧ Z.of_nat (length revenue) = years
     ∧ Z.of_nat (length net_income) = years
     ∧ revenue !! 0%nat = Some initial_revenue
     ∧ ∀ i : nat, (Z.of_nat i < years)%Z →
         ∃ rev : float,
           rev = fmul initial_revenue
                      (pow_value (fadd 1 (value growth_rate)) i)
           ∧ revenue !! i = Some rev
           ∧ net_income !! i = Some (fmul rev margin))
  ∧ (∀ i : nat, (Z.of_nat i < years)%Z →
       overflows (one_plus growth_rate) i = true →
       project_financials income_statement net_profit_margin growth_rate years
       = Raise OverflowError).
Proof.
  intros Hcol Hlast Hm _ Hy.
  rewrite (project_financials_run _ total_revenue _ initial_revenue)
    by assumption.
  split.
  - intros Hno. rewrite revenues_Ok by exact Hno. cbn [mbind result_bind].
    rewrite (net_incomes_Ok _ margin) by exact Hm. cbn [mbind result_bind].
    eexists _, _. split; [reflexivity|].
    assert (Hlen : Z.of_nat (length (range years)) = years)
      by (unfold range; rewrite length_seq; lia).
    split; [rewrite length_fmap; exact Hlen|].
    split; [rewrite !length_fmap; exact Hlen|].
    split.
    + rewrite list_lookup_fmap, range_lookup by lia. cbn [fmap option_fmap option_map].
      cbn [pow_value]. rewrite fmul_1_r. reflexivity.
    + intros i Hi. eexists. split; [reflexivity|].
      rewrite !list_lookup_fmap, range_lookup by exact Hi.
      split; reflexivity.
  - intros i Hi Hover. rewrite (revenues_overflows _ _ _ i) by assumption.
    reflexivity.
Qed.

(** X3.  Asked for no years ([years <= 0]) [project_financials] returns two
    empty sequences, and never looks at the growth rate or the margins: it
    does so even for an empty margin Series, whose [[-1]] would raise. *)
Theorem project_financials_no_years (income_statement : DataFrame)
    (total_revenue net_profit_margin : Series)
    (growth_rate : scalar) (years : Z) :
  income_statement !! "Total Revenue" = Some total_revenue →
  total_revenue ≠ [] →
  (years <= 0)%Z →
  project_financials income_statement net_profit_margin growth_rate years
  = Ok ([], []).
Proof.
  intros Hcol Hne Hy.
  destruct (last total_revenue) as [initial_revenue|] eqn:Hlast;
    [|apply last_None in Hlast; contradiction].
  rewrite (project_financials_run _ total_revenue _ initial_revenue)
    by assumption.
  unfold revenues. rewrite range_nil by exact Hy. reflexivity.
Qed.

(** X4.  [project_financials] raises exactly when the table has no Total
    Revenue column (KeyError); when that column is empty (IndexError); when
    one of the powers [(1 + growth_rate) ** i], [i < years], overflows
    (OverflowError); or, none of them overflowing, when at least one year
    is asked for and the margin Series is empty (IndexError). *)
Theorem project_financials_raises_iff (income_statement : DataFrame)
    (net_profit_margin : Series) (growth_rate : scalar) (years : Z)
    (e : exn) :
  project_financials income_statement net_profit_margin growth_rate years
  = Raise e
  ↔ (income_statement !! "Total Revenue" = None
     ∧ e = KeyError "Total Revenue")
    ∨ (income_statement !! "Total Revenue" = Some [] ∧ e = IndexError)
    ∨ (∃ total_revenue,
         income_statement !! "Total Revenue" = Some total_revenue
         ∧ total_revenue ≠ []
         ∧ ((e = OverflowError
             ∧ ∃ i : nat, (Z.of_nat i < years)%Z
                          ∧ overflows (one_plus growth_rate) i = true)
            ∨ (no_overflow growth_rate (Z.to_nat years - 1)
               ∧ (0 < years)%Z ∧ net_profit_margin = []
               ∧ e = IndexError))).
Proof.
  destruct (income_statement !! "Total Revenue") as [total_revenue|] eqn:Hcol.
  2:{ unfold project_financials, getitem. rewrite Hcol.
      cbn [mbind result_bind]. split.
      - intros [= <-]. left. tauto.
      - intros [[_ ->] | [[? _] | (? & ? & _)]];
          [reflexivity | discriminate | discriminate]. }
  destruct (last total_revenue) as [initial_revenue|] eqn:Hlast.
  2:{ apply last_None in Hlast. subst total_revenue.
      unfold project_financials, getitem, item_last. rewrite Hcol.
      cbn [mbind result_bind last]. split.
      - intros [= <-]. right. left. tauto.
      - intros [[? _] | [[_ ->] | (col & [= <-] & Hne & _)]];
          [discriminate | reflexivity | contradiction]. }
  assert (Hne : total_revenue ≠ []) by (intros ->; discriminate).
  rewrite (project_financials_run _ total_revenue _ initial_revenue)
    by assumption.
  split.
  - intros Hraise. right. right. exists total_revenue.
    split; [reflexivity|]. split; [exact Hne|].
    destruct (revenues initial_revenue growth_rate years)
      as [revenue|e'] eqn:Hrev; cbn [mbind result_bind] in Hraise.
    + right. pose proof (revenues_Ok_inv _ _ _ _ Hrev) as Hno.
      split; [exact Hno|].
      rewrite revenues_Ok in Hrev by exact Hno. injection Hrev as <-.
      destruct (last net_profit_margin) as [margin|] eqn:Hm.
      * rewrite (net_incomes_Ok _ margin) in Hraise by exact Hm.
        discriminate.
      * apply last_None in Hm. subst net_profit_margin.
        destruct (Z_lt_le_dec 0 years) as [Hy|Hy].
        -- rewrite net_incomes_Raise in Hraise
             by (intros Hnil; apply fmap_nil_inv in Hnil;
                 exact (range_not_nil _ Hy Hnil)).
           injection Hraise as <-. tauto.
        -- rewrite range_nil in Hraise by exact Hy. discriminate.
    + injection Hraise as <-. left.
      apply revenues_Raise_inv in Hrev. exact Hrev.
  - intros [[? _] | [[Habs _] | (col & [= <-] & _ & Hcase)]];
      [discriminate | injection Habs as ->; contradiction |].
    destruct Hcase as [(-> & i & Hi & Hover) | (Hno & Hy & -> & ->)].
    + rewrite (revenues_overflows _ _ _ i) by assumption. reflexivity.
    + rewrite revenues_Ok by exact Hno. cbn [mbind result_bind].
      rewrite net_incomes_Raise
        by (intros Hnil; apply fmap_nil_inv in Hnil;
            exact (range_not_nil _ Hy Hnil)).
      reflexivity.
Qed.

(** *** The entry point *)

Lemma last_series_div_is_Some (numerator denominator : Series) :
  numerator ≠ [] → denominator ≠ [] →
  is_Some (last (series_div numerator denominator)).
Proof.
  intros Hn Hd. unfold series_div.
  destruct (last (zip_with fdiv numerator denominator)) eqn:Hlast; [eauto|].
  apply last_None in Hlast.
  destruct numerator, denominator; try contradiction. discriminate.
Qed.

Lemma calculate_ratios_Ok_run (income_statement balance_sheet : DataFrame)
    (gross_profit operating_income net_income total_revenue
     total_liabilities total_equity : Series) :
  income_statement !! "Gross Profit" = Some gross_profit →
  income_statement !! "Operating Income" = Some operating_income →
  income_statement !! "Net Income" = Some net_income →
  income_statement !! "Total Revenue" = Some total_revenue →
  balance_sheet !! "Total Liabilities" = Some total_liabilities →
  balance_sheet !! "Total Stockholder Equity" = Some total_equity →
  ∃ ratios,
    calculate_ratios income_statement balance_sheet = Ok ratios
    ∧ ratios !! "net_profit_margin"
      = Some (series_div net_income total_revenue).
Proof.
  intros Hgp Hoi Hni Hrev Htl Heq. unfold calculate_ratios, getitem.
  rewrite Hgp, Hoi, Hni, Hrev, Htl, Heq. cbn [mbind result_bind].
  eexists. split; reflexivity.
Qed.

(** [np.linspace(0.08, 0.12, 5)] *)
Lemma linspace_sweep :
  linspace 0.08 0.12 5
  = [NpFloat 0.08; NpFloat 0.09; NpFloat 0.1; NpFloat 0.11; NpFloat 0.12].
Proof. vm_compute. reflexivity. Qed.

(** What the block computes once every subscript succeeds and none of
    [1.1 ** k], [k <= 5], overflows. *)
Lemma main_run (income_statement balance_sheet cash_flow stock_data : DataFrame)
    (gross_profit operating_income net_income total_revenue total_liabilities
     total_equity free_cash_flow : Series)
    (initial_revenue last_net_income last_fcf margin : float) :
  income_statement !! "Gross Profit" = Some gross_profit →
  income_statement !! "Operating Income" = Some operating_income →
  income_statement !! "Net Income" = Some net_income →
  income_statement !! "Total Revenue" = Some total_revenue →
  balance_sheet !! "Total Liabilities" = Some total_liabilities →
  balance_sheet !! "Total Stockholder Equity" = Some total_equity →
  cash_flow !! "Free Cash Flow" = Some free_cash_flow →
  last total_revenue = Some initial_revenue →
  last net_income = Some last_net_income →
  last free_cash_flow = Some last_fcf →
  last (series_div net_income total_revenue) = Some margin →
  no_overflow (PyFloat 0.10) 5 →
  let revenue :=
    (fun i => fmul initial_revenue (pow_value (fadd 1 0.10) i))
    <$> [0; 1; 2; 3; 4]%nat in
  let projections := (fun rev => fmul rev margin) <$> revenue in
  let ratio := fdiv last_fcf last_net_income in
  let sweep :=
    (fun rate =>
       (rate, spec_discounted_value projections ratio
                (spec_terminal_value projections ratio
                   (NpFloat 0.08) (PyFloat 0.02)) rate))
    <$> linspace 0.08 0.12 5 in
  ∃ ratios,
    main income_statement balance_sheet cash_flow stock_data
    = Ok (Report ratios revenue projections
            (spec_enterprise_value projections ratio
               (PyFloat 0.10) (PyFloat 0.02))
            sweep (snd <$> sweep)).
Proof.
  intros Hgp Hoi Hni Hrev Htl Heq Hfcf Hr0 Hn Hf Hm Hno
         revenue projections ratio sweep.
  destruct (calculate_ratios_Ok_run income_statement balance_sheet
              gross_profit operating_income net_income total_revenue
              total_liabilities total_equity)
    as (ratios & Hratios & Hmargin); try assumption.
  exists ratios. unfold main. rewrite Hratios. cbn [mbind result_bind].
  unfold getitem at 1. rewrite Hmargin. cbn [mbind result_bind].
  rewrite (project_financials_run _ total_revenue _ initial_revenue)
    by assumption.
  rewrite revenues_Ok
    by (apply (no_overflow_le _ 5); [unfold default_years; lia | exact Hno]).
  cbn [mbind result_bind]. rewrite (net_incomes_Ok _ margin) by exact Hm.
  cbn [mbind result_bind mret result_ret fst snd].
  change (range default_years) with [0; 1; 2; 3; 4]%nat.
  change (value (PyFloat 0.10)) with 0.10%float.
  fold revenue. fold projections.
  assert (Hratio : fcf_to_net_income_ratio
                     (main_globals income_statement balance_sheet cash_flow
                                   stock_data) cash_flow = Ok ratio).
  { apply (fcf_to_net_income_ratio_readings _ _ income_statement
             free_cash_flow net_income); try assumption.
    unfold main_globals. apply lookup_insert_eq. }
  assert (Hne : projections ≠ []) by discriminate.
  rewrite (dcf_valuation_Ok _ _ _ ratio) by assumption.
  cbn [mbind result_bind].
  rewrite linspace_sweep at 1.
  rewrite (sensitivity_analysis_run _ _ _ ratio) by assumption.
  rewrite sensitivity_loop_Ok
    by (repeat constructor; apply no_overflow_numpy).
  cbn [mbind result_bind]. unfold sweep. rewrite linspace_sweep.
  reflexivity.
Qed.

(** X17.  With the seven columns present and at least one reading in Total
    Revenue, Net Income and Free Cash Flow, the block raises nothing (zero,
    infinite and NaN readings included), in every C library whose
    [1.1 ** k] is not infinite for [k <= 5]: it projects five years, the
    first projected revenue being the last reported one, and sweeps the
    five rates 0.08, 0.09, 0.10, 0.11, 0.12 in that order, plotting the
    second components of the sweep. *)
Theorem main_returns (income_statement balance_sheet cash_flow
    stock_data : DataFrame)
    (gross_profit operating_income net_income total_revenue total_liabilities
     total_equity free_cash_flow : Series) (initial_revenue : float) :
  income_statement !! "Gross Profit" = Some gross_profit →
  income_statement !! "Operating Income" = Some operating_income →
  income_statement !! "Net Income" = Some net_income →
  income_statement !! "Total Revenue" = Some total_revenue →
  balance_sheet !! "Total Liabilities" = Some total_liabilities →
  balance_sheet !! "Total Stockholder Equity" = Some total_equity →
  cash_flow !! "Free Cash Flow" = Some free_cash_flow →
  last total_revenue = Some initial_revenue →
  net_income ≠ [] →
  free_cash_flow ≠ [] →
  no_overflow (PyFloat 0.10) 5 →
  ∃ r : report,
    main income_statement balance_sheet cash_flow stock_data = Ok r
    ∧ length (report_revenue_projections r) = 5%nat
    ∧ length (report_net_income_projections r) = 5%nat
    ∧ report_revenue_projections r !! 0%nat = Some initial_revenue
    ∧ Forall2 (fun pair rate => pair.1 = NpFloat rate)
              (report_sensitivity_results r)
              [0.08; 0.09; 0.1; 0.11; 0.12]%float
    ∧ report_ev_sensitivity r = (report_sensitivity_results r).*2.
Proof.
  intros Hgp Hoi Hni Hrev Htl Heq Hfcf Hr0 Hn Hf Hno.
  assert (Hrev_ne : total_revenue ≠ []) by (intros ->; discriminate).
  destruct (last net_income) as [last_net_income|] eqn:Hlast_ni;
    [|apply last_None in Hlast_ni; contradiction].
  destruct (last free_cash_flow) as [last_fcf|] eqn:Hlast_fcf;
    [|apply last_None in Hlast_fcf; contradiction].
  destruct (last_series_div_is_Some net_income total_revenue Hn Hrev_ne)
    as [margin Hmargin].
  destruct (main_run income_statement balance_sheet cash_flow stock_data
              gross_profit operating_income net_income total_revenue
              total_liabilities total_equity free_cash_flow
              initial_revenue last_net_income last_fcf margin)
    as [ratios Hrun]; try assumption.
  eexists. split; [exact Hrun|]. cbn [report_revenue_projections
    report_net_income_projections report_sensitivity_results
    report_ev_sensitivity].
  split; [reflexivity|]. split; [reflexivity|]. split.
  - cbn [fmap list_fmap lookup list_lookup pow_value].
    rewrite fmul_1_r. reflexivity.
  - split; [|reflexivity].
    rewrite linspace_sweep. repeat constructor.
Qed.

End AnyLibm.

(** ** [calculate_ratios] *)





(** X1.  Whatever the two tables hold, [calculate_ratios] either returns or
    raises the KeyError of the first required column, in the order the body
    subscripts them, that the tables lack; it returns exactly when none is
    lacking. *)
Theorem calculate_ratios_first_missing_column
    (income_statement balance_sheet : DataFrame) :
  match find (fun fk => missing fk.1 fk.2)
             (required_columns income_statement balance_sheet) with
  | Some (_, key) =>
      calculate_ratios income_statement balance_sheet = Raise (KeyError key)
  | None =>
      ∃ ratios, calculate_ratios income_statement balance_sheet = Ok ratios
  end.
Proof.
  unfold calculate_ratios, required_columns, getitem, missing.
  cbn [find fst snd].
  destruct (income_statement !! "Gross Profit"); [|reflexivity].
  destruct (income_statement !! "Total Revenue"); [|reflexivity].
  destruct (income_statement !! "Operating Income"); [|reflexivity].
  destruct (income_statement !! "Net Income"); [|reflexivity].
  destruct (balance_sheet !! "Total Liabilities"); [|reflexivity].
  destruct (balance_sheet !! "Total Stockholder Equity"); [|reflexivity].
  eexists. reflexivity.
Qed.

Lemma calculate_ratios_Ok_inv (income_statement balance_sheet : DataFrame)
    (ratios : gmap string Series) :
  calculate_ratios income_statement balance_sheet = Ok ratios →
  ∃ gross_profit operating_income net_income total_revenue
    total_liabilities total_equity,
    income_statement !! "Gross Profit" = Some gross_profit
    ∧ income_statement !! "Operating Income" = Some operating_income
    ∧ income_statement !! "Net Income" = Some net_income
    ∧ income_statement !! "Total Revenue" = Some total_revenue
    ∧ balance_sheet !! "Total Liabilities" = Some total_liabilities
    ∧ balance_sheet !! "Total Stockholder Equity" = Some total_equity
    ∧ ratios !! "gross_margin" = Some (series_div gross_profit total_revenue)
    ∧ ratios !! "operating_margin"
      = Some (series_div operating_income total_revenue)
    ∧ ratios !! "net_profit_margin" = Some (series_div net_income total_revenue)
    ∧ ratios !! "debt_to_equity"
      = Some (series_div total_liabilities total_equity).
Proof.
  unfold calculate_ratios, getitem.
  destruct (income_statement !! "Gross Profit") as [gp|]; [|discriminate].
  destruct (income_statement !! "Total Revenue") as [rev|]; [|discriminate].
  destruct (income_statement !! "Operating Income") as [oi|]; [|discriminate].
  destruct (income_statement !! "Net Income") as [ni|]; [|discriminate].
  destruct (balance_sheet !! "Total Liabilities") as [tl|]; [|discriminate].
  destruct (balance_sheet !! "Total Stockholder Equity") as [eq|];
    [|discriminate].
  cbn [mbind result_bind]. intros [= <-].
  exists gp, oi, ni, rev, tl, eq.
  do 6 (split; [reflexivity|]).
  do 3 (split; [reflexivity|]). reflexivity.
Qed.

(** X2.  A period whose Total Revenue is zero ([0.0] or [-0.0]) does not
    make [calculate_ratios] raise: the call returns, and each of the three
    margins has a non-finite value ([inf], [-inf] or [nan]) in that
    period. *)
Theorem calculate_ratios_zero_revenue
    (income_statement balance_sheet : DataFrame)
    (ratios : gmap string Series) (total_revenue : Series)
    (period : nat) (zero : float) (name : string) (margins : Series)
    (reading : float) :
  calculate_ratios income_statement balance_sheet = Ok ratios →
  income_statement !! "Total Revenue" = Some total_revenue →
  total_revenue !! period = Some zero →
  iszero zero = true →
  name ∈ ["gross_margin"; "operating_margin"; "net_profit_margin"] →
  ratios !! name = Some margins →
  margins !! period = Some reading →
  isfinite reading = false.
Proof.
  intros Hrun Hrev Hperiod Hzero Hname Hmargins Hreading.
  destruct (calculate_ratios_Ok_inv _ _ _ Hrun)
    as (gp & oi & ni & rev & tl & eq & _ & _ & _ & Hrev' & _ & _
        & Hgm & Hom & Hnpm & _).
  rewrite Hrev in Hrev'. injection Hrev' as <-.
  assert (Hdiv : ∀ numerator, margins = series_div numerator total_revenue →
                              isfinite reading = false).
  { intros numerator ->. unfold series_div in Hreading.
    apply lookup_zip_with_Some in Hreading as (x & d & -> & _ & Hd).
    rewrite Hperiod in Hd. injection Hd as <-.
    apply fdiv_zero_not_finite. exact Hzero. }
  repeat (apply elem_of_cons in Hname as [-> | Hname]);
    [ rewrite Hgm in Hmargins | rewrite Hom in Hmargins
    | rewrite Hnpm in Hmargins | apply elem_of_nil in Hname; contradiction ];
    injection Hmargins as <-; eapply Hdiv; reflexivity.
Qed.

Lemma calculate_ratios_zero_revenue_witness :
  ∃ ratios margins,
    calculate_ratios zero_revenue_income_statement sample_balance_sheet
    = Ok ratios
    ∧ ratios !! "gross_margin" = Some margins
    ∧ margins !! 0%nat = Some infinity
    ∧ isfinite infinity = false.
Proof.
  assert (Hrun : calculate_ratios zero_revenue_income_statement
                                  sample_balance_sheet
                 = Ok (<["gross_margin" :=
                           series_div [400; 450]%float [0; 1000]%float]>
                       (<["operating_margin" :=
                            series_div [250; 300]%float [0; 1000]%float]>
                        (<["net_profit_margin" :=
                             series_div [90; 100]%float [0; 1000]%float]>
                         (<["debt_to_equity" :=
                              series_div [500; 600]%float [250; 300]%float]>
                          ∅)))))
    by reflexivity.
  eexists _, (series_div [400; 450]%float [0; 1000]%float).
  split; [exact Hrun|]. split; [reflexivity|].
  split; [vm_compute; reflexivity|].
  apply (calculate_ratios_zero_revenue zero_revenue_income_statement
           sample_balance_sheet _ [0; 1000]%float 0 0%float "gross_margin"
           (series_div [400; 450]%float [0; 1000]%float) infinity Hrun);
    [reflexivity | reflexivity | reflexivity | apply list_elem_of_here
    | reflexivity | vm_compute; reflexivity].
Defined.

(** ** Line 44 *)

#[local] Set Warnings "-clear-no-such-hyp".

(** X7.  Line 44 fails at its first failing subscript, read left to right: the
    Free Cash Flow column of the argument, its last reading, the
    module-level name [income_statement], its Net Income column, that
    column's last reading.  An absent or empty Free Cash Flow column is
    reported even when [income_statement] is not bound at all. *)
Theorem fcf_to_net_income_ratio_raises_iff (G : Globals)
    (cash_flow : DataFrame) (e : exn) :
  fcf_to_net_income_ratio G cash_flow = Raise e
  ↔ (cash_flow !! "Free Cash Flow" = None ∧ e = KeyError "Free Cash Flow")
    ∨ (cash_flow !! "Free Cash Flow" = Some [] ∧ e = IndexError)
    ∨ (∃ free_cash_flow,
         cash_flow !! "Free Cash Flow" = Some free_cash_flow
         ∧ free_cash_flow ≠ []
         ∧ ((G !! "income_statement" = None
             ∧ e = NameError "income_statement")
            ∨ (∃ income_statement,
                 G !! "income_statement" = Some income_statement
                 ∧ ((income_statement !! "Net Income" = None
                     ∧ e = KeyError "Net Income")
                    ∨ (income_statement !! "Net Income" = Some []
                       ∧ e = IndexError))))).
Proof.
  unfold fcf_to_net_income_ratio, getitem, global, item_last.
  destruct (cash_flow !! "Free Cash Flow") as [fcf|];
    cbn [mbind result_bind]; [|naive_solver].
  destruct (last fcf) as [a|] eqn:Ha; cbn [mbind result_bind];
    [|apply last_None in Ha; naive_solver].
  assert (Hne : fcf ≠ []) by (intros ->; discriminate).
  destruct (G !! "income_statement") as [income_statement|];
    cbn [mbind result_bind]; [|naive_solver].
  destruct (income_statement !! "Net Income") as [ni|] eqn:Hcol;
    cbn [mbind result_bind].
  - destruct (last ni) as [b|] eqn:Hb; cbn [mbind result_bind].
    + assert (Hni : ni ≠ []) by (intros ->; discriminate).
      naive_solver.
    + apply last_None in Hb. subst ni. split; [|naive_solver].
      intros [= <-]. right. right. exists fcf.
      split; [reflexivity|]. split; [exact Hne|]. right.
      exists income_statement. split; [reflexivity|]. right. tauto.
  - split; [|naive_solver].
    intros [= <-]. right. right. exists fcf.
    split; [reflexivity|]. split; [exact Hne|]. right.
    exists income_statement. split; [reflexivity|]. left. tauto.
Qed.

(** ** Runs with the correctly rounded power

    From here on the power is [cr_libm]'s: the functions are run on the
    sample tables. *)

(** Decides [no_overflow rate n] for a concrete rate and a small [n], one
    exponent at a time. *)
Ltac no_overflow_upto :=
  let k := fresh "k" in
  let Hk := fresh "Hk" in
  intros k Hk; simpl in Hk;
  do 8 (destruct k as [|k]; [first [lia | vm_compute; reflexivity]|]);
  lia.

(** Two returned binary64 constants differ when their decodings do. *)
Ltac float_discriminate H :=
  apply (f_equal (fun m => match m with
                           | Ok x => Prim2SF x
                           | Raise _ => S754_nan
                           end)) in H;
  vm_compute in H; discriminate H.

Lemma sample_ratio :
  fcf_to_net_income_ratio sample_globals sample_cash_flow = Ok 1%float.
Proof. vm_compute. reflexivity. Qed.

Lemma halved_ratio :
  fcf_to_net_income_ratio halved_globals sample_cash_flow = Ok 2%float.
Proof. vm_compute. reflexivity. Qed.

(** *** The valuation *)

Lemma dcf_valuation_formula_witness :
  dcf_valuation sample_globals [100; 110]%float sample_cash_flow
                (PyFloat 0.1) (PyFloat 0.02)
  = Ok 1340.9090909090908%float
  ∧ dcf_valuation sample_globals [100; 110]%float sample_cash_flow
                  (PyFloat 0x1p600) (PyFloat 0.02)
    = Raise OverflowError.
Proof.
  pose proof (dcf_valuation_formula sample_globals sample_cash_flow
                [100; 110]%float 1 (PyFloat 0.1) (PyFloat 0.02)
                sample_ratio ltac:(discriminate) ltac:(reflexivity))
    as Hsmall.
  pose proof (dcf_valuation_formula sample_globals sample_cash_flow
                [100; 110]%float 1 (PyFloat 0x1p600) (PyFloat 0.02)
                sample_ratio ltac:(discriminate) ltac:(reflexivity))
    as Hlarge.
  cbv zeta in Hsmall, Hlarge.
  destruct Hsmall as [Hreturns _]. destruct Hlarge as [_ Hraises].
  split.
  - rewrite Hreturns by no_overflow_upto. vm_compute. reflexivity.
  - apply (Hraises 2%nat); [simpl; lia | vm_compute; reflexivity].
Defined.

(** C1, at a concrete input.  With the discount rate [2.0 ** 600], above
    the terminal growth rate, and two periods, the call returns no value:
    [(1 + 2.0 ** 600) ** 2] raises OverflowError. *)
Lemma dcf_valuation_overflow_raises :
  PrimFloat.ltb 0.02 0x1p600 = true
  ∧ dcf_valuation sample_globals [100; 110]%float sample_cash_flow
                  (PyFloat 0x1p600) (PyFloat 0.02)
    = Raise OverflowError.
Proof. split; vm_compute; reflexivity. Qed.


(** At equal rates the value returned is [inf]. *)
Example dcf_valuation_at_equal_rates :
  dcf_valuation sample_globals [100]%float sample_cash_flow
                (PyFloat 0.02) (PyFloat 0.02)
  = Ok infinity.
Proof. vm_compute. reflexivity. Qed.


(** C3.  [dcf_valuation] is not a function of its four arguments alone:
    line 44 divides by [income_statement['Net Income'][-1]], and
    [income_statement] is no parameter but a module-level name.  Two runs
    with the same four arguments, in modules that bind [income_statement]
    to different tables, return different enterprise values (1250 and
    2500). *)
Lemma dcf_valuation_depends_on_global :
  dcf_valuation sample_globals [100]%float sample_cash_flow
                (PyFloat 0.1) (PyFloat 0.02)
    = Ok 1250%float
  ∧ dcf_valuation halved_globals [100]%float sample_cash_flow
                  (PyFloat 0.1) (PyFloat 0.02)
    = Ok 2500%float
  ∧ dcf_valuation sample_globals [100]%float sample_cash_flow
                  (PyFloat 0.1) (PyFloat 0.02)
    ≠ dcf_valuation halved_globals [100]%float sample_cash_flow
                    (PyFloat 0.1) (PyFloat 0.02).
Proof.
  assert (Hsample : dcf_valuation sample_globals [100]%float sample_cash_flow
                                  (PyFloat 0.1) (PyFloat 0.02)
                    = Ok 1250%float) by (vm_compute; reflexivity).
  assert (Hhalved : dcf_valuation halved_globals [100]%float sample_cash_flow
                                  (PyFloat 0.1) (PyFloat 0.02)
                    = Ok 2500%float) by (vm_compute; reflexivity).
  split; [exact Hsample|]. split; [exact Hhalved|].
  rewrite Hsample, Hhalved. intros Heq. float_discriminate Heq.
Qed.

(** *** The rate sweep *)

Lemma sensitivity_analysis_fixed_terminal_value_witness :
  sensitivity_analysis sample_globals [100; 110]%float sample_cash_flow
                       [PyFloat 0.1; PyFloat 0.25] (PyFloat 0.02)
  = Ok [(PyFloat 0.1, 1340.9090909090908%float); (PyFloat 0.25, 1048%float)]
  ∧ sensitivity_analysis sample_globals [100; 110]%float sample_cash_flow
                         [PyFloat 0.1; PyFloat 1e200] (PyFloat 0.02)
    = Raise OverflowError.
Proof.
  pose proof (sensitivity_analysis_fixed_terminal_value sample_globals
                sample_cash_flow [100; 110]%float 1 (PyFloat 0.1)
                [PyFloat 0.25] (PyFloat 0.02)
                sample_ratio ltac:(discriminate)) as Hsmall.
  pose proof (sensitivity_analysis_fixed_terminal_value sample_globals
                sample_cash_flow [100; 110]%float 1 (PyFloat 0.1)
                [PyFloat 1e200] (PyFloat 0.02)
                sample_ratio ltac:(discriminate)) as Hlarge.
  cbv zeta in Hsmall, Hlarge.
  destruct Hsmall as [Hreturns _]. destruct Hlarge as [_ Hraises].
  split.
  - rewrite Hreturns by (repeat constructor; no_overflow_upto).
    vm_compute. reflexivity.
  - apply (Hraises (PyFloat 1e200) 2%nat);
      [right; left | simpl; lia | vm_compute; reflexivity].
Defined.

(** A later rate of the sweep does diverge from [dcf_valuation] at that
    rate: the sweep keeps the terminal value of the first rate. *)
Example sensitivity_analysis_later_rate_diverges :
  sensitivity_analysis sample_globals [100; 110]%float sample_cash_flow
                       [PyFloat 0.1; PyFloat 0.25] (PyFloat 0.02)
  = Ok [(PyFloat 0.1, 1340.9090909090908%float); (PyFloat 0.25, 1048%float)]
  ∧ dcf_valuation sample_globals [100; 110]%float sample_cash_flow
                  (PyFloat 0.25) (PyFloat 0.02)
    = Ok 462.60869565217388%float.
Proof. split; vm_compute; reflexivity. Qed.

(** A later Python float rate one of whose powers overflows leaves the
    sweep without any pair, the one of the first rate included; the same
    rates as [numpy.float64] give a pair each. *)
Example sensitivity_analysis_later_rate_overflows :
  sensitivity_analysis sample_globals [100; 110]%float sample_cash_flow
                       [PyFloat 0.1; PyFloat 1e200] (PyFloat 0.02)
  = Raise OverflowError
  ∧ dcf_valuation sample_globals [100; 110]%float sample_cash_flow
                  (PyFloat 0.1) (PyFloat 0.02)
    = Ok 1340.9090909090908%float
  ∧ sensitivity_analysis sample_globals [100; 110]%float sample_cash_flow
                         [NpFloat 0.1; NpFloat 1e200] (PyFloat 0.02)
    = Ok [(NpFloat 0.1, 1340.9090909090908%float);
          (NpFloat 1e200, 1.0000000000000001e-198%float)].
Proof. split; [|split]; vm_compute; reflexivity. Qed.

(** C7, at a concrete input.  For the empty sequence of rates the call does
    not return the empty sequence of pairs: it raises IndexError. *)
Lemma sensitivity_analysis_no_rates_no_result :
  sensitivity_analysis sample_globals [100]%float sample_cash_flow []
                       (PyFloat 0.02)
  = Raise IndexError
  ∧ sensitivity_analysis sample_globals [100]%float sample_cash_flow []
                         (PyFloat 0.02)
    ≠ Ok [].
Proof.
  assert (Hrun : sensitivity_analysis sample_globals [100]%float
                   sample_cash_flow [] (PyFloat 0.02) = Raise IndexError)
    by (vm_compute; reflexivity).
  split; [exact Hrun | rewrite Hrun; discriminate].
Qed.

Lemma sensitivity_analysis_one_pair_per_rate_witness :
  ∃ results : list (scalar * float),
    sensitivity_analysis sample_globals [100; 110]%float sample_cash_flow
                         [PyFloat 0.1; PyFloat 0.25] (PyFloat 0.02)
    = Ok results
    ∧ length results = 2%nat
    ∧ results.*1 = [PyFloat 0.1; PyFloat 0.25].
Proof.
  destruct (sensitivity_analysis_one_pair_per_rate sample_globals
              sample_cash_flow [100; 110]%float 1
              [PyFloat 0.1; PyFloat 0.25] (PyFloat 0.02)
              sample_ratio ltac:(discriminate) ltac:(discriminate))
    as (results & Hrun & Hlen & Hfst & _);
    [repeat constructor; no_overflow_upto|].
  exists results. split; [exact Hrun|]. split; [exact Hlen | exact Hfst].
Defined.


Lemma sensitivity_analysis_empty_rates_witness :
  sensitivity_analysis sample_globals [100]%float sample_cash_flow []
                       (PyFloat 0.02)
  = Raise IndexError.
Proof.
  apply (sensitivity_analysis_empty_rates sample_globals [100]%float
           sample_cash_flow (PyFloat 0.02)) with (ratio := 1%float);
    [exact sample_ratio | discriminate].
Defined.

Lemma sensitivity_analysis_extends_witness :
  (∃ more_results : list (scalar * float),
     sensitivity_analysis sample_globals [100; 110]%float sample_cash_flow
                          ([PyFloat 0.1; PyFloat 0.25] ++ [PyFloat 0.3])
                          (PyFloat 0.02)
     = Ok ([(PyFloat 0.1, 1340.9090909090908%float);
            (PyFloat 0.25, 1048%float)] ++ more_results)
     ∧ more_results.*1 = [PyFloat 0.3])
  ∧ sensitivity_analysis sample_globals [100; 110]%float sample_cash_flow
                         ([PyFloat 0.1; PyFloat 0.25] ++ [PyFloat 1e200])
                         (PyFloat 0.02)
    = Raise OverflowError.
Proof.
  split.
  - apply (sensitivity_analysis_extends sample_globals [100; 110]%float
             sample_cash_flow [PyFloat 0.1; PyFloat 0.25] [PyFloat 0.3]
             (PyFloat 0.02));
      [exact (proj1 sensitivity_analysis_later_rate_diverges)
      |repeat constructor; no_overflow_upto].
  - apply (sensitivity_analysis_extends sample_globals [100; 110]%float
             sample_cash_flow [PyFloat 0.1; PyFloat 0.25] [PyFloat 1e200]
             (PyFloat 0.02) _
             (proj1 sensitivity_analysis_later_rate_diverges))
      with (rate := PyFloat 1e200) (k := 2%nat);
      [left | simpl; lia | vm_compute; reflexivity].
Defined.

Lemma dcf_valuation_exception_ignores_rates_witness :
  dcf_valuation ∅ [100]%float sample_cash_flow (PyFloat 0.01) (PyFloat 0.02)
  = Raise (NameError "income_statement")
  ∧ sensitivity_analysis ∅ [100]%float sample_cash_flow [] (PyFloat 0.02)
    = Raise (NameError "income_statement").
Proof.
  assert (Hrun : dcf_valuation ∅ [100]%float sample_cash_flow
                               (PyFloat 0.1) (PyFloat 0.02)
                 = Raise (NameError "income_statement"))
    by (vm_compute; reflexivity).
  destruct (dcf_valuation_exception_ignores_rates ∅ [100]%float
              sample_cash_flow (PyFloat 0.1) (PyFloat 0.02)
              (NameError "income_statement") Hrun ltac:(discriminate))
    as [Hdcf Hsweep].
  split; [apply Hdcf | apply Hsweep].
Defined.

(** *** The projection *)

Lemma project_financials_spec_witness :
  project_financials sample_income_statement [0.1; 0.1]%float (PyFloat 0.1) 3
  = Ok ([1000; 1100; 1210.0000000000002]%float,
        [100; 110; 121.00000000000003]%float)
  ∧ project_financials sample_income_statement [0.1; 0.1]%float
                       (PyFloat 0x1p600) 3
    = Raise OverflowError.
Proof.
  destruct (project_financials_spec sample_income_statement
              [900; 1000]%float [0.1; 0.1]%float 1000 0.1 (PyFloat 0.1) 3)
    as [Hreturns _];
    [reflexivity | reflexivity | reflexivity | reflexivity | lia |].
  destruct (project_financials_spec sample_income_statement
              [900; 1000]%float [0.1; 0.1]%float 1000 0.1
              (PyFloat 0x1p600) 3)
    as [_ Hraises];
    [reflexivity | reflexivity | reflexivity | reflexivity | lia |].
  split.
  - destruct Hreturns as (revenue & net_income & Hrun & _);
      [no_overflow_upto|].
    rewrite Hrun. revert Hrun. vm_compute. intros [= <- <-]. reflexivity.
  - apply (Hraises 2%nat); [lia | vm_compute; reflexivity].
Defined.

(** C6, at a concrete input.  With the growth rate [2.0 ** 600], above
    [-1], and three years the call returns no sequence:
    [(1 + 2.0 ** 600) ** 2] raises OverflowError. *)
Lemma project_financials_overflow_raises :
  PrimFloat.ltb (-1) 0x1p600 = true
  ∧ (0 < 3)%Z
  ∧ project_financials sample_income_statement [0.1; 0.1]%float
                       (PyFloat 0x1p600) 3
    = Raise OverflowError.
Proof. split; [|split]; [reflexivity | lia | vm_compute; reflexivity]. Qed.

(** The projection is rounded: the third revenue is not [1210], and a
    growth rate below half an ulp of [1] does not grow the revenue. *)
Example project_financials_rounds :
  project_financials sample_income_statement [0.1; 0.1]%float (PyFloat 0.1) 3
  = Ok ([1000; 1100; 1210.0000000000002]%float,
        [100; 110; 121.00000000000003]%float)
  ∧ project_financials sample_income_statement [0.1; 0.1]%float
                       (PyFloat 1e-17) 3
    = Ok ([1000; 1000; 1000]%float, [100; 100; 100]%float).
Proof. split; vm_compute; reflexivity. Qed.

Lemma project_financials_no_years_witness :
  project_financials sample_income_statement [] (PyFloat 0.1) (-2)
  = Ok ([], []).
Proof.
  apply (project_financials_no_years sample_income_statement
           [900; 1000]%float [] (PyFloat 0.1) (-2));
    [reflexivity | discriminate | lia].
Defined.

(** *** The entry point *)

Lemma main_returns_witness :
  ∃ r : report,
    main sample_income_statement sample_balance_sheet sample_cash_flow ∅
    = Ok r
    ∧ length (report_revenue_projections r) = 5%nat
    ∧ report_revenue_projections r !! 0%nat = Some 1000%float.
Proof.
  destruct (main_returns sample_income_statement sample_balance_sheet
              sample_cash_flow ∅ [400; 450]%float [250; 300]%float
              [90; 100]%float [900; 1000]%float [500; 600]%float
              [250; 300]%float [80; 100]%float 1000)
    as (r & Hrun & Hlen & _ & Hfirst & _);
    [reflexivity | reflexivity | reflexivity | reflexivity | reflexivity
    | reflexivity | reflexivity | reflexivity | discriminate | discriminate
    | no_overflow_upto |].
  exists r. split; [exact Hrun|]. split; [exact Hlen | exact Hfirst].
Defined.

Lemma sensitivity_analysis_numpy_rates_witness :
  ∃ results : list (scalar * float),
    sensitivity_analysis sample_globals [100; 110]%float sample_cash_flow
                         [NpFloat 0.1; NpFloat 1e200] (PyFloat 0.02)
    = Ok results
    ∧ results.*1 = [NpFloat 0.1; NpFloat 1e200].
Proof.
  destruct (sensitivity_analysis_numpy_rates sample_globals sample_cash_flow
              [100; 110]%float 1 0.1 [1e200]%float (PyFloat 0.02)
              sample_ratio ltac:(discriminate))
    as (_ & results & Hrun & Hfst & _).
  exists results. split; [exact Hrun | exact Hfst].
Defined.

(** X21.  On the sample tables the block projects the revenues 1000, 1100,
    1210.0000000000002, ..., prints the enterprise value
    1613.6363636363635, and plots 2000.0000000000005 at the rate 0.10 of
    the sweep: the sweep sizes its terminal value by its first rate 0.08,
    so at the very rate of the headline figure it shows another value. *)
Theorem main_sample_report :
  ∃ r : report,
    main sample_income_statement sample_balance_sheet sample_cash_flow ∅
    = Ok r
    ∧ report_revenue_projections r
      = [1000; 1100; 1210.0000000000002; 1331.0000000000005;
         1464.1000000000004]%float
    ∧ report_enterprise_value r = 1613.6363636363635%float
    ∧ report_sensitivity_results r !! 2%nat
      = Some (NpFloat 0.1, 2000.0000000000005%float).
Proof.
  eexists. split; [vm_compute; reflexivity|].
  split; [reflexivity|]. split; reflexivity.
Qed.

(** *** The valuation against the rate *)

(** Raising the discount rate does not always lower the value: a
    projection of zero is worth [0.0] at every rate, and two adjacent
    binary64 rates give one and the same value to a growing, positive
    projection. *)
Example dcf_valuation_not_always_decreasing :
  PrimFloat.ltb 0.02 0.1 = true ∧ PrimFloat.ltb 0.1 0.25 = true
  ∧ dcf_valuation sample_globals [0]%float sample_cash_flow
                  (PyFloat 0.1) (PyFloat 0.02) = Ok 0%float
  ∧ dcf_valuation sample_globals [0]%float sample_cash_flow
                  (PyFloat 0.25) (PyFloat 0.02) = Ok 0%float
  ∧ PrimFloat.ltb 0.4282938563604993 0.4282938563604994 = true
  ∧ dcf_valuation sample_globals [100; 110; 121; 133.1; 146.41]%float
                  sample_cash_flow (PyFloat 0.4282938563604993) (PyFloat 0.02)
    = Ok 283.60826767681215%float
  ∧ dcf_valuation sample_globals [100; 110; 121; 133.1; 146.41]%float
                  sample_cash_flow (PyFloat 0.4282938563604994) (PyFloat 0.02)
    = Ok 283.60826767681215%float.
Proof. repeat split; vm_compute; reflexivity. Qed.
